(** * Broadcast.js: the notice banner and the rolling activity log

    A shallow embedding of [src/broadcast.js].  The module keeps a private
    [store] (runtime log, current notice, timer handle), reads a static list
    of notices, and manipulates four page elements.  The page, the timer
    queue, the clock and the console belong to the host; they are modelled
    here as components of a [World] that every function threads through an
    exception monad. *)

From Stdlib Require Import String Ascii List ZArith Lia Bool Arith DecimalString.
Import ListNotations.

Local Open Scope string_scope.
Local Open Scope Z_scope.

(* ------------------------------------------------------------------ *)
(** ** Data of the script *)

(** [config]: both constants are JavaScript numbers. *)
Record Config : Type := mkConfig {
  noticeDisplayTime : Z;
  maxLogEntries : Z
}.

Definition config : Config :=
  {| noticeDisplayTime := 15000; maxLogEntries := 50 |}.

(** A notice.  [importance] is [None] when the property is absent
    (JavaScript [undefined]). *)
Record Notice : Type := mkNotice {
  id : Z;
  message : string;
  importance : option string;
  timestamp : string
}.

(** A runtime log entry, as [addLogEntry] builds it. *)
Record LogEntry : Type := mkLogEntry {
  log_timestamp : string;
  log_message : string;
  log_type : string
}.

(** The private [store]. *)
Record Store : Type := mkStore {
  logs : list LogEntry;
  currentNotice : option Notice;
  noticeTimer : option nat
}.

(** The [notices] array of the source file. *)
Definition notices : list Notice :=
  [ mkNotice 7 "Distrubute your X posts easily with our Quote Generator"
      (Some "update") "2025-04-02T02:42:00Z";
    mkNotice 6 "Verify a domain SSL status, without getting cached. (REMOVED)"
      (Some "warning") "2025-03-10T02:42:00Z";
    mkNotice 5 "Huge update for X profile, business & affiliate badges added"
      (Some "update") "2025-02-27T10:00:00Z";
    mkNotice 4 "WhatsApp link generator has been updated with new features!"
      (Some "update") "2025-02-27T10:00:00Z";
    mkNotice 3 "System maintenance scheduled for tomorrow at 2 AM UTC"
      (Some "warning") "2025-02-26T15:30:00Z";
    mkNotice 2 "New tool coming soon: Color Palette Generator"
      (Some "info") "2025-02-25T12:45:00Z";
    mkNotice 1 "Welcome to Web Tools Collection! Explore our tools."
      (Some "info") "2025-02-24T09:00:00Z" ].

(* ------------------------------------------------------------------ *)
(** ** The host: page elements, timers, clock, console *)

(** A child of the log container: a [div] with a class name and either a
    [textContent] or an [innerHTML] assigned to it. *)
Inductive Body : Type :=
| TextContent (s : string)
| InnerHTML (s : string).

Record Element : Type := mkElement {
  className : string;
  body : Body
}.

(** The four elements the script looks up by identifier; [None] is what
    [document.getElementById] answers when the page lacks the element.
    The banner is its class list, the text region its [textContent], the
    close button the number of click listeners registered on it, the log
    container its children. *)
Record Dom : Type := mkDom {
  noticeBanner : option (list string);
  noticeText : option string;
  closeNotice : option nat;
  logsContainer : option (list Element)
}.

(** A pending one-shot timer.  Every timer this script creates runs the
    same callback (remove [active] from the banner), so a timer is its
    handle and the time it is due. *)
Record Timer : Type := mkTimer {
  handle : nat;
  fireAt : Z
}.

Inductive JsError : Type :=
| TypeError
| SyntaxError
| InvalidCharacterError.

Record World : Type := mkWorld {
  store : Store;
  dom : Dom;
  timers : list Timer;
  timerSeq : nat;
  now : Z;
  console : list string
}.

(** Field updates. *)
Definition set_store (s : Store) (w : World) : World :=
  mkWorld s (dom w) (timers w) (timerSeq w) (now w) (console w).
Definition set_dom (d : Dom) (w : World) : World :=
  mkWorld (store w) d (timers w) (timerSeq w) (now w) (console w).
Definition set_timers (t : list Timer) (w : World) : World :=
  mkWorld (store w) (dom w) t (timerSeq w) (now w) (console w).
Definition set_timerSeq (k : nat) (w : World) : World :=
  mkWorld (store w) (dom w) (timers w) k (now w) (console w).
Definition set_now (t : Z) (w : World) : World :=
  mkWorld (store w) (dom w) (timers w) (timerSeq w) t (console w).
Definition set_console (c : list string) (w : World) : World :=
  mkWorld (store w) (dom w) (timers w) (timerSeq w) (now w) c.

Definition set_logs (l : list LogEntry) (s : Store) : Store :=
  mkStore l (currentNotice s) (noticeTimer s).
Definition set_currentNotice (n : option Notice) (s : Store) : Store :=
  mkStore (logs s) n (noticeTimer s).
Definition set_noticeTimer (h : option nat) (s : Store) : Store :=
  mkStore (logs s) (currentNotice s) h.

Definition set_noticeBanner (b : option (list string)) (d : Dom) : Dom :=
  mkDom b (noticeText d) (closeNotice d) (logsContainer d).
Definition set_noticeText (t : option string) (d : Dom) : Dom :=
  mkDom (noticeBanner d) t (closeNotice d) (logsContainer d).
Definition set_closeNotice (c : option nat) (d : Dom) : Dom :=
  mkDom (noticeBanner d) (noticeText d) c (logsContainer d).
Definition set_logsContainer (c : option (list Element)) (d : Dom) : Dom :=
  mkDom (noticeBanner d) (noticeText d) (closeNotice d) c.

(** The store a freshly loaded script starts with, on a given page. *)
Definition empty_store : Store := mkStore [] None None.

Definition fresh_world (d : Dom) (t0 : Z) : World :=
  mkWorld empty_store d [] 0 t0 [].

(* ------------------------------------------------------------------ *)
(** ** The exception monad *)

(** A computation either returns a value or throws; in both cases the
    world it leaves behind is kept, since a JavaScript exception does not
    roll back the mutations made before it. *)
Inductive Res (A : Type) : Type :=
| Ok (a : A) (w : World)
| Throw (e : JsError) (w : World).
Arguments Ok {A} a w.
Arguments Throw {A} e w.

Definition M (A : Type) : Type := World -> Res A.

Definition ret {A} (a : A) : M A := fun w => Ok a w.

Definition bind {A B} (m : M A) (k : A -> M B) : M B :=
  fun w => match m w with
           | Ok a w' => k a w'
           | Throw e w' => Throw e w'
           end.

Definition throw {A} (e : JsError) : M A := fun w => Throw e w.
Definition gets {A} (f : World -> A) : M A := fun w => Ok (f w) w.
Definition modify (f : World -> World) : M unit := fun w => Ok tt (f w).

Declare Scope js_scope.
Delimit Scope js_scope with js.
Notation "x <- m ;; k" := (bind m (fun x => k))
  (at level 61, m at next level, right associativity) : js_scope.
Notation "m ;; k" := (bind m (fun _ => k))
  (at level 61, right associativity) : js_scope.
Local Open Scope js_scope.

(** The world a computation leaves, whether it returned or threw. *)
Definition world_of {A} (r : Res A) : World :=
  match r with
  | Ok _ w => w
  | Throw _ w => w
  end.

Definition returns {A} (r : Res A) : bool :=
  match r with
  | Ok _ _ => true
  | Throw _ _ => false
  end.

(** A callback the host invokes (a timer callback, an event listener): an
    exception it throws is reported by the host and goes no further. *)
Definition host_run (m : M unit) (w : World) : World := world_of (m w).

(* ------------------------------------------------------------------ *)
(** ** Host primitives *)

(** JavaScript truthiness of the two kinds of value the script tests. *)
Definition truthy_string (v : option string) : bool :=
  match v with
  | Some s => negb (String.eqb s "")
  | None => false
  end.

Definition truthy_handle (v : option nat) : bool :=
  match v with
  | Some h => negb (Nat.eqb h 0)
  | None => false
  end.

(** String conversion inside a template literal. *)
Definition js_string (v : option string) : string :=
  match v with
  | Some s => s
  | None => "undefined"
  end.

(** [DOMTokenList]: a token must be non-empty and free of ASCII
    whitespace, otherwise [add] and [remove] throw. *)
Definition is_ascii_whitespace (c : ascii) : bool :=
  let k := nat_of_ascii c in
  (Nat.eqb k 9 || Nat.eqb k 10 || Nat.eqb k 12 || Nat.eqb k 13 || Nat.eqb k 32)%bool.

Fixpoint has_whitespace (s : string) : bool :=
  match s with
  | EmptyString => false
  | String c s' => (is_ascii_whitespace c || has_whitespace s')%bool
  end.

Definition validate_token (tok : string) : option JsError :=
  if String.eqb tok "" then Some SyntaxError
  else if has_whitespace tok then Some InvalidCharacterError
  else None.

Definition has_token (tok : string) (cl : list string) : bool :=
  existsb (String.eqb tok) cl.

Definition token_add (tok : string) (cl : list string) : list string :=
  if has_token tok cl then cl else (cl ++ [tok])%list.

Definition token_remove (tok : string) (cl : list string) : list string :=
  filter (fun t => negb (String.eqb tok t)) cl.

(** Assigning [className] replaces the class list by the ordered set of
    the whitespace-separated tokens of the string. *)
Fixpoint split_tokens (s cur : string) : list string :=
  match s with
  | EmptyString => if String.eqb cur "" then [] else [cur]
  | String c s' =>
      if is_ascii_whitespace c
      then (if String.eqb cur "" then split_tokens s' ""
            else cur :: split_tokens s' "")
      else split_tokens s' (cur ++ String c "")
  end.

Definition parse_className (s : string) : list string :=
  fold_left (fun cl t => token_add t cl) (split_tokens s "") [].

(** Operations on the banner element.  The script only reaches them
    behind a null test; on a null reference they would throw. *)
Definition banner_update (f : list string -> list string) : M unit :=
  fun w => match noticeBanner (dom w) with
           | None => Throw TypeError w
           | Some cl => Ok tt (set_dom (set_noticeBanner (Some (f cl)) (dom w)) w)
           end.

Definition banner_set_className (s : string) : M unit :=
  banner_update (fun _ => parse_className s).

Definition banner_classList_add (tok : string) : M unit :=
  match validate_token tok with
  | Some e => fun w => match noticeBanner (dom w) with
                       | None => Throw TypeError w
                       | Some _ => Throw e w
                       end
  | None => banner_update (token_add tok)
  end.

Definition banner_classList_remove (tok : string) : M unit :=
  match validate_token tok with
  | Some e => fun w => match noticeBanner (dom w) with
                       | None => Throw TypeError w
                       | Some _ => Throw e w
                       end
  | None => banner_update (token_remove tok)
  end.

Definition noticeText_set_textContent (s : string) : M unit :=
  fun w => match noticeText (dom w) with
           | None => Throw TypeError w
           | Some _ => Ok tt (set_dom (set_noticeText (Some s) (dom w)) w)
           end.

Definition closeBtn_addEventListener : M unit :=
  fun w => match closeNotice (dom w) with
           | None => Throw TypeError w
           | Some k => Ok tt (set_dom (set_closeNotice (Some (S k)) (dom w)) w)
           end.

Definition container_update (f : list Element -> list Element) : M unit :=
  fun w => match logsContainer (dom w) with
           | None => Throw TypeError w
           | Some ch => Ok tt (set_dom (set_logsContainer (Some (f ch)) (dom w)) w)
           end.

(** [logsContainer.innerHTML = ''] and [logsContainer.appendChild]. *)
Definition container_clear : M unit := container_update (fun _ => []).
Definition container_appendChild (e : Element) : M unit :=
  container_update (fun ch => (ch ++ [e])%list).

Definition console_error (msg : string) : M unit :=
  modify (fun w => set_console (console w ++ [msg]) w).

(** [setTimeout]: the delay is converted to a 32-bit signed integer and
    a negative result counts as zero; the handle is a fresh positive
    integer. *)
Definition to_int32 (d : Z) : Z := (d + 2 ^ 31) mod 2 ^ 32 - 2 ^ 31.
Definition timer_delay (d : Z) : Z := Z.max 0 (to_int32 d).

Definition setTimeout (delay : Z) : M nat :=
  fun w => let h := S (timerSeq w) in
           Ok h (set_timerSeq h
                   (set_timers (timers w ++ [mkTimer h (now w + timer_delay delay)]) w)).

Definition clearTimeout (v : option nat) : M unit :=
  match v with
  | Some h => modify (fun w =>
                set_timers (filter (fun t => negb (Nat.eqb (handle t) h)) (timers w)) w)
  | None => ret tt
  end.

(** [Array.prototype.slice(0, e)]. *)
Definition slice0 {A} (e : Z) (l : list A) : list A :=
  let len := Z.of_nat (length l) in
  let k := if e <? 0 then Z.max (len + e) 0 else Z.min e len in
  firstn (Z.to_nat k) l.

(** [Array.prototype.forEach]. *)
Fixpoint forEach {A} (l : list A) (f : A -> M unit) : M unit :=
  match l with
  | [] => ret tt
  | x :: l' => f x ;; forEach l' f
  end.

(** What the script uses of [Date]: the ISO rendering of an instant, and
    the locale date and locale time of the instant an ISO string denotes.
    They depend on the locale and time zone of the host. *)
Record DateHost : Type := mkDateHost {
  toISOString : Z -> string;
  toLocaleDateString : string -> string;
  toLocaleTimeString : string -> string
}.

Definition nl : string := String "010"%char "".
Definition dq : string := String "034"%char "".
Definition indent16 : string := "                ".
Definition indent12 : string := "            ".

(** The template literal assigned to [logElement.innerHTML]. *)
Definition entry_html (stamp msg : string) : string :=
  nl ++ indent16 ++ "<span class=" ++ dq ++ "log-timestamp" ++ dq ++ ">["
     ++ stamp ++ "]</span>"
     ++ nl ++ indent16 ++ "<span class=" ++ dq ++ "log-message" ++ dq ++ ">"
     ++ msg ++ "</span>"
     ++ nl ++ indent12.

(* ------------------------------------------------------------------ *)
(** ** The script *)

Section Script.

(** The closure's constants: the configuration and the notice list (the
    source binds them to [config] and [notices] above), and the host's
    date functions. *)
Variable cfg : Config.
Variable noticeList : list Notice.
Variable date : DateHost.

(** The [div] built for a static notice and for a runtime log entry. *)
Definition noticeElement (notice : Notice) : Element :=
  let formattedDate :=
    toLocaleDateString date (timestamp notice) ++ " "
      ++ toLocaleTimeString date (timestamp notice) in
  mkElement ("log-entry log-" ++ js_string (importance notice))
            (InnerHTML (entry_html formattedDate (message notice))).

Definition logElement (log : LogEntry) : Element :=
  let formattedTime := toLocaleTimeString date (log_timestamp log) in
  mkElement ("log-entry log-" ++ log_type log)
            (InnerHTML (entry_html formattedTime (log_message log))).

Definition sectionHeader (text : string) : Element :=
  mkElement "log-section-header" (TextContent text).

Definition updateLogsUI : M unit :=
  container <- gets (fun w => logsContainer (dom w)) ;;
  match container with
  | None => ret tt
  | Some _ =>
      container_clear ;;
      container_appendChild (sectionHeader "Notice History:") ;;
      forEach noticeList (fun notice =>
        container_appendChild (noticeElement notice)) ;;
      container_appendChild (sectionHeader "System Logs:") ;;
      entries <- gets (fun w => logs (store w)) ;;
      forEach entries (fun log => container_appendChild (logElement log))
  end.

(** [type] is [None] when the caller passes no second argument (or
    [undefined]); the default parameter value is then ["info"]. *)
Definition addLogEntry (message : string) (type : option string) : M unit :=
  t <- gets now ;;
  let logEntry :=
    mkLogEntry (toISOString date t) message
               (match type with Some s => s | None => "info" end) in
  modify (fun w => set_store (set_logs (logEntry :: logs (store w)) (store w)) w) ;;
  entries <- gets (fun w => logs (store w)) ;;
  (if Z.of_nat (length entries) >? maxLogEntries cfg
   then modify (fun w =>
          set_store (set_logs (slice0 (maxLogEntries cfg) (logs (store w)))
                              (store w)) w)
   else ret tt) ;;
  updateLogsUI.

Definition hideNotice : M unit :=
  banner <- gets (fun w => noticeBanner (dom w)) ;;
  match banner with
  | Some _ => banner_classList_remove "active"
  | None => ret tt
  end ;;
  timer <- gets (fun w => noticeTimer (store w)) ;;
  if truthy_handle timer
  then clearTimeout timer ;;
       modify (fun w => set_store (set_noticeTimer None (store w)) w)
  else ret tt.

Definition displayNotice (notice : Notice) : M unit :=
  banner <- gets (fun w => noticeBanner (dom w)) ;;
  text <- gets (fun w => noticeText (dom w)) ;;
  match banner, text with
  | Some _, Some _ =>
      noticeText_set_textContent (message notice) ;;
      banner_set_className "notice-banner active" ;;
      (if truthy_string (importance notice)
       then banner_classList_add (js_string (importance notice))
       else ret tt) ;;
      banner_classList_add "active" ;;
      timer <- gets (fun w => noticeTimer (store w)) ;;
      (if truthy_handle timer then clearTimeout timer else ret tt) ;;
      h <- setTimeout (noticeDisplayTime cfg) ;;
      modify (fun w => set_store (set_noticeTimer (Some h) (store w)) w) ;;
      modify (fun w => set_store (set_currentNotice (Some notice) (store w)) w)
  | _, _ => console_error "Notice banner elements not found"
  end.

(** The callback [displayNotice] hands to [setTimeout]. *)
Definition timerCallback : M unit := banner_classList_remove "active".

(** The click listener [setupCloseButton] registers. *)
Definition closeListener : M unit :=
  hideNotice ;;
  addLogEntry "Notice manually closed by user" None.

Definition setupCloseButton : M unit :=
  closeBtn <- gets (fun w => closeNotice (dom w)) ;;
  match closeBtn with
  | Some _ => closeBtn_addEventListener
  | None => console_error "Close button element not found"
  end.

Definition getAllNotices : M (list Notice) := ret noticeList.

Definition init : M unit :=
  addLogEntry "Broadcast system initialized" None ;;
  match noticeList with
  | latestNotice :: _ =>
      displayNotice latestNotice ;;
      addLogEntry ("Displaying notice: " ++ message latestNotice)
                  (importance latestNotice)
  | [] => addLogEntry "No notices available" None
  end ;;
  updateLogsUI ;;
  setupCloseButton ;;
  addLogEntry "Broadcast system ready" None.

(* ---------------------------------------------------------------- *)
(** *** The event loop *)

(** A click on the close button runs each registered listener once. *)
Definition click (w : World) : World :=
  match closeNotice (dom w) with
  | Some k => Nat.iter k (host_run closeListener) w
  | None => w
  end.

(** Time passes: the clock advances and every timer that is due is
    taken off the queue and its callback run. *)
Definition due (t : Z) (tm : Timer) : bool := fireAt tm <=? t.

Definition elapse (dt : Z) (w : World) : World :=
  let t := now w + Z.max 0 dt in
  let fired := filter (due t) (timers w) in
  let waiting := filter (fun tm => negb (due t tm)) (timers w) in
  fold_left (fun w' _ => host_run timerCallback w') fired
            (set_timers waiting (set_now t w)).

(** Everything that can happen to the script: a call of its public
    interface by the page, a click, or the passage of time. *)
Inductive Event : Type :=
| CallInit
| CallDisplayNotice (notice : Notice)
| CallHideNotice
| CallAddLogEntry (message : string) (type : option string)
| CallGetAllNotices
| Click
| Elapse (dt : Z).

(** A public call as a computation; the two host events never throw into
    the script. *)
Definition call (e : Event) : M unit :=
  match e with
  | CallInit => init
  | CallDisplayNotice notice => displayNotice notice
  | CallHideNotice => hideNotice
  | CallAddLogEntry message type => addLogEntry message type
  | CallGetAllNotices => getAllNotices ;; ret tt
  | Click => modify click
  | Elapse dt => modify (elapse dt)
  end.

Definition after (e : Event) (w : World) : World := world_of (call e w).

Definition run (es : list Event) (w : World) : World :=
  fold_left (fun w' e => after e w') es w.

(** The states the script can be in: those a run reaches from a freshly
    loaded page. *)
Definition reachable (w : World) : Prop :=
  exists d t0 es, w = run es (fresh_world d t0).

(** The banner is shown exactly when it carries the class [active]. *)
Definition visible (w : World) : bool :=
  match noticeBanner (dom w) with
  | Some cl => has_token "active" cl
  | None => false
  end.

(** [n] calls of [hideNotice] in a row. *)
Definition hideTimes (n : nat) (w : World) : World :=
  Nat.iter n (fun w' => world_of (hideNotice w')) w.

(** A sequence of [addLogEntry] calls, each after some time has passed. *)
Definition appendAll (calls : list (Z * string * option string)) (w : World)
  : World :=
  fold_left (fun w' c =>
               match c with
               | (dt, msg, ty) => world_of (addLogEntry msg ty (elapse dt w'))
               end) calls w.

End Script.

(* ------------------------------------------------------------------ *)
(** ** Definitions used to state the properties *)

Section Statements.

Variable cfg : Config.
Variable noticeList : list Notice.
Variable date : DateHost.

(** The children [updateLogsUI] leaves in the log container, given the
    runtime log. *)
Definition rendered (entries : list LogEntry) : list Element :=
  (sectionHeader "Notice History:" :: map (noticeElement date) noticeList
     ++ sectionHeader "System Logs:" :: map (logElement date) entries)%list.

Definition render (w : World) : World :=
  match logsContainer (dom w) with
  | None => w
  | Some _ =>
      set_dom (set_logsContainer (Some (rendered (logs (store w)))) (dom w)) w
  end.

(** The entry an [addLogEntry] call builds at instant [t]. *)
Definition entryAt (t : Z) (message : string) (type : option string)
  : LogEntry :=
  mkLogEntry (toISOString date t) message
             (match type with Some s => s | None => "info" end).

(** The log after one more entry, under the cap. *)
Definition capped (l : list LogEntry) : list LogEntry :=
  if Z.of_nat (length l) >? maxLogEntries cfg
  then slice0 (maxLogEntries cfg) l else l.

(** The entries a sequence of timed [addLogEntry] calls builds, in call
    order (oldest first), starting at instant [t]. *)
Fixpoint stamped (calls : list (Z * string * option string)) (t : Z)
  : list LogEntry :=
  match calls with
  | [] => []
  | (dt, msg, ty) :: rest =>
      let t' := t + Z.max 0 dt in
      entryAt t' msg ty :: stamped rest t'
  end.

(** The world after [addLogEntry message type]. *)
Definition logged (message : string) (type : option string) (w : World)
  : World :=
  render (set_store
            (set_logs (capped (entryAt (now w) message type :: logs (store w)))
                      (store w)) w).

(** The timer queue after [clearTimeout]. *)
Definition cancel (v : option nat) (q : list Timer) : list Timer :=
  match v with
  | Some h => filter (fun t => negb (Nat.eqb (handle t) h)) q
  | None => q
  end.

(** The world after the banner, if there is one, lost the class
    [active]. *)
Definition unshown (w : World) : World :=
  match noticeBanner (dom w) with
  | Some cl =>
      set_dom (set_noticeBanner (Some (token_remove "active" cl)) (dom w)) w
  | None => w
  end.

(** The world after [setupCloseButton]. *)
Definition wired (w : World) : World :=
  match closeNotice (dom w) with
  | Some k => set_dom (set_closeNotice (Some (S k)) (dom w)) w
  | None => set_console (console w ++ ["Close button element not found"]) w
  end.

(** The world after [hideNotice]. *)
Definition hidden (w : World) : World :=
  let w1 := unshown w in
  if truthy_handle (noticeTimer (store w))
  then set_store (set_noticeTimer None (store w1))
                 (set_timers (cancel (noticeTimer (store w)) (timers w1)) w1)
  else w1.

(** The class list [displayNotice] gives the banner. *)
Definition styled (notice : Notice) : list string :=
  token_add "active"
    (if truthy_string (importance notice)
     then token_add (js_string (importance notice))
                    (parse_className "notice-banner active")
     else parse_className "notice-banner active").

(** The importance of the notice can be added to a class list. *)
Definition styleable (notice : Notice) : bool :=
  if truthy_string (importance notice)
  then match validate_token (js_string (importance notice)) with
       | None => true
       | Some _ => false
       end
  else true.

(** The world after a [displayNotice] that found its elements and a
    usable importance. *)
Definition shown (notice : Notice) (w : World) : World :=
  let h := S (timerSeq w) in
  let q := if truthy_handle (noticeTimer (store w))
           then cancel (noticeTimer (store w)) (timers w) else timers w in
  mkWorld
    (mkStore (logs (store w)) (Some notice) (Some h))
    (mkDom (Some (styled notice)) (Some (message notice))
           (closeNotice (dom w)) (logsContainer (dom w)))
    (q ++ [mkTimer h (now w + timer_delay (noticeDisplayTime cfg))])
    h (now w) (console w).

(** Both elements [displayNotice] needs are on the page. *)
Definition banner_ready (w : World) : bool :=
  match noticeBanner (dom w), noticeText (dom w) with
  | Some _, Some _ => true
  | _, _ => false
  end.

(** At most one timer is pending, and it is the one whose handle the
    store holds. *)
Definition one_timer (w : World) : Prop :=
  timers w = [] \/
  exists tm, timers w = [tm] /\ noticeTimer (store w) = Some (handle tm)
             /\ handle tm <> 0%nat.

(** An operation logged a diagnostic when the console grew. *)
Definition logged_diagnostic (w w' : World) : bool :=
  Nat.ltb (length (console w)) (length (console w')).

(** An event that runs [displayNotice]. *)
Definition displays (e : Event) : bool :=
  match e with
  | CallInit | CallDisplayNotice _ => true
  | _ => false
  end.

(** The log respects the cap. *)
Definition within_cap (w : World) : Prop :=
  Z.of_nat (length (logs (store w))) <= maxLogEntries cfg.

(** The log container, when the page has one, shows the notices and the
    log as the store has it. *)
Definition synced (w : World) : Prop :=
  match logsContainer (dom w) with
  | Some ch => ch = rendered (logs (store w))
  | None => True
  end.

(** At most one timer is pending, and none while the banner is hidden. *)
Definition tidy (w : World) : Prop :=
  one_timer w /\ (timers w = [] \/ visible w = true).

(** The number of [init] calls in a run. *)
Definition is_init (e : Event) : bool :=
  match e with
  | CallInit => true
  | _ => false
  end.

Definition count_inits (es : list Event) : nat := length (filter is_init es).

(** The entry [init] logs between its first and its last one, at
    instant [t]. *)
Definition announcement (t : Z) : LogEntry :=
  match noticeList with
  | latestNotice :: _ =>
      entryAt t ("Displaying notice: " ++ message latestNotice)
              (importance latestNotice)
  | [] => entryAt t "No notices available" None
  end.

(** The importance of the first notice, if there is one, can be added to
    a class list. *)
Definition head_styleable : bool :=
  match noticeList with
  | latestNotice :: _ => styleable latestNotice
  | [] => true
  end.

End Statements.

(* ------------------------------------------------------------------ *)
(** ** Sample pages and inputs *)

(** A stand-in for the host's date functions: it keeps the instant, and
    the string it is asked to reformat, readable in its output. *)
Definition sample_date : DateHost :=
  mkDateHost (fun t => "@" ++ NilZero.string_of_int (Z.to_int t))
             (fun s => "date " ++ s)
             (fun s => "time " ++ s).

(** A page with all four elements, one with none of them, and one that
    only lacks the log container. *)
Definition full_page : Dom :=
  mkDom (Some ["notice-banner"]) (Some "") (Some 0%nat) (Some []).

Definition bare_page : Dom := mkDom None None None None.

Definition page_without_logs : Dom :=
  mkDom (Some ["notice-banner"]) (Some "") (Some 0%nat) None.

(** The two notices of the specification's example. *)
Definition notice_B : Notice := mkNotice 2 "B" (Some "warning") "2025-02-25T12:45:00Z".
Definition notice_A : Notice := mkNotice 1 "A" (Some "info") "2025-02-24T09:00:00Z".

(** A notice without importance. *)
Definition notice_plain : Notice := mkNotice 9 "P" None "2025-02-24T09:00:00Z".

(** The world once notice B was shown on a full page and its timer has
    fired. *)
Definition autohidden_world : World :=
  elapse 15000 (world_of (displayNotice config notice_B (fresh_world full_page 0))).

(** A notice whose importance is not a class token. *)
Definition notice_spaced : Notice :=
  mkNotice 8 "S" (Some "very important") "2025-02-24T09:00:00Z".

(** A configuration with a negative cap. *)
Definition negative_config : Config := mkConfig 15000 (-3).

(** The world once [init] has run on a full page, with the two notices
    of the example. *)
Definition initialised_world : World :=
  world_of (init config [notice_B; notice_A] sample_date (fresh_world full_page 100)).

(** A configuration with a small cap. *)
Definition small_config : Config := mkConfig 15000 2.

Definition three_calls : list (Z * string * option string) :=
  [(0, "first", None); (5, "second", Some "warning"); (0, "third", None)].

(* ------------------------------------------------------------------ *)
(** ** Equations of the host primitives *)

Lemma set_dom_same (w : World) : set_dom (dom w) w = w.
Proof. destruct w; reflexivity. Qed.

Lemma set_logsContainer_same (d : Dom) : set_logsContainer (logsContainer d) d = d.
Proof. destruct d; reflexivity. Qed.

Lemma active_is_token : validate_token "active" = None.
Proof. reflexivity. Qed.

Lemma base_classes : parse_className "notice-banner active" = ["notice-banner"; "active"].
Proof. reflexivity. Qed.

Lemma has_token_add (tok : string) (cl : list string) :
  has_token tok (token_add tok cl) = true.
Proof.
  unfold token_add. destruct (has_token tok cl) eqn:E; [exact E|].
  unfold has_token. rewrite existsb_app. cbn. rewrite String.eqb_refl.
  now rewrite orb_true_r.
Qed.

Lemma has_token_remove (tok : string) (cl : list string) :
  has_token tok (token_remove tok cl) = false.
Proof.
  unfold has_token, token_remove. induction cl as [|c cl IH]; [reflexivity|].
  cbn. destruct (String.eqb tok c) eqn:E; cbn; [exact IH|].
  now rewrite E.
Qed.

Lemma token_remove_absent (tok : string) (cl : list string) :
  has_token tok cl = false -> token_remove tok cl = cl.
Proof.
  unfold has_token, token_remove. induction cl as [|c cl IH]; [reflexivity|].
  cbn. intros H. apply orb_false_elim in H as [H1 H2].
  rewrite H1. cbn. now rewrite IH.
Qed.

Lemma token_remove_idem (tok : string) (cl : list string) :
  token_remove tok (token_remove tok cl) = token_remove tok cl.
Proof. apply token_remove_absent, has_token_remove. Qed.

Lemma forEach_appendChild {A} (f : A -> Element) (l : list A) :
  forall w ch,
    logsContainer (dom w) = Some ch ->
    forEach l (fun x => container_appendChild (f x)) w
    = Ok tt (set_dom (set_logsContainer (Some (ch ++ map f l)%list) (dom w)) w).
Proof.
  induction l as [|x l IH]; intros w ch Hc.
  - cbn. rewrite app_nil_r, <- Hc, set_logsContainer_same, set_dom_same.
    reflexivity.
  - cbn [forEach]. unfold bind at 1.
    unfold container_appendChild, container_update at 1. rewrite Hc.
    erewrite IH by reflexivity. cbn. now rewrite <- app_assoc.
Qed.

Lemma bind_Ok {A B} (m : M A) (k : A -> M B) (w w' : World) (a : A) :
  m w = Ok a w' -> bind m k w = k a w'.
Proof. unfold bind. now intros ->. Qed.

Lemma bind_Throw {A B} (m : M A) (k : A -> M B) (w w' : World) (e : JsError) :
  m w = Throw e w' -> bind m k w = Throw e w'.
Proof. unfold bind. now intros ->. Qed.

Lemma container_update_Some (f : list Element -> list Element) (w : World) ch :
  logsContainer (dom w) = Some ch ->
  container_update f w = Ok tt (set_dom (set_logsContainer (Some (f ch)) (dom w)) w).
Proof. unfold container_update. now intros ->. Qed.

Lemma container_appendChild_Some (e : Element) (w : World) ch :
  logsContainer (dom w) = Some ch ->
  container_appendChild e w
  = Ok tt (set_dom (set_logsContainer (Some (ch ++ [e])%list) (dom w)) w).
Proof. apply (container_update_Some (fun c => (c ++ [e])%list)). Qed.

(* ------------------------------------------------------------------ *)
(** ** Equations of the script's functions *)

Arguments timer_delay : simpl never.
Arguments capped : simpl never.
Arguments rendered : simpl never.
Arguments entry_html : simpl never.
Arguments parse_className : simpl never.
Arguments slice0 : simpl never.

Section Equations.

Variable cfg : Config.
Variable noticeList : list Notice.
Variable date : DateHost.

Lemma updateLogsUI_eq (w : World) :
  updateLogsUI noticeList date w = Ok tt (render noticeList date w).
Proof.
  unfold updateLogsUI, render.
  rewrite (bind_Ok _ _ w w (logsContainer (dom w))) by reflexivity.
  destruct (logsContainer (dom w)) as [ch|] eqn:Hc; [|reflexivity].
  unfold container_clear.
  erewrite bind_Ok by (eapply container_update_Some; eassumption).
  erewrite bind_Ok by (eapply container_appendChild_Some; reflexivity).
  erewrite bind_Ok by (eapply forEach_appendChild; reflexivity).
  erewrite bind_Ok by (eapply container_appendChild_Some; reflexivity).
  erewrite bind_Ok by reflexivity.
  erewrite forEach_appendChild by reflexivity.
  cbn. unfold rendered. now rewrite <- app_assoc.
Qed.

Lemma addLogEntry_eq (message : string) (type : option string) (w : World) :
  addLogEntry cfg noticeList date message type w
  = Ok tt (logged cfg noticeList date message type w).
Proof.
  unfold addLogEntry, logged.
  erewrite bind_Ok by reflexivity.
  erewrite bind_Ok by reflexivity.
  erewrite bind_Ok by reflexivity.
  cbn [logs store set_store set_logs].
  unfold capped at 1. cbn [length].
  destruct (Z.of_nat (S (length (logs (store w)))) >? maxLogEntries cfg) eqn:E.
  - erewrite bind_Ok by reflexivity. rewrite updateLogsUI_eq.
    destruct w as [[lg cn nt] d q k t c]. reflexivity.
  - erewrite bind_Ok by reflexivity. rewrite updateLogsUI_eq. reflexivity.
Qed.

Lemma hideNotice_eq (w : World) :
  hideNotice w = Ok tt (hidden w).
Proof.
  unfold hideNotice, hidden.
  erewrite bind_Ok by reflexivity.
  destruct w as [[lg cn nt] [bn tx cb lc] q k t c].
  destruct bn as [cl|]; destruct nt as [[|h]|]; reflexivity.
Qed.

Lemma displayNotice_missing (notice : Notice) (w : World) :
  banner_ready w = false ->
  displayNotice cfg notice w
  = Ok tt (set_console (console w ++ ["Notice banner elements not found"]) w).
Proof.
  unfold banner_ready, displayNotice. intros H.
  erewrite bind_Ok by reflexivity. erewrite bind_Ok by reflexivity.
  destruct (noticeBanner (dom w)), (noticeText (dom w));
    try discriminate; reflexivity.
Qed.

Lemma displayNotice_shown (notice : Notice) (w : World) :
  banner_ready w = true -> styleable notice = true ->
  displayNotice cfg notice w = Ok tt (shown cfg notice w).
Proof.
  unfold banner_ready, displayNotice, styleable, shown, styled.
  intros H Hs.
  destruct w as [[lg cn nt] [bn tx cb lc] q k t c]. cbn in H.
  destruct bn as [cl|]; [|discriminate]. destruct tx as [tx|]; [|discriminate].
  destruct (truthy_string (importance notice)) eqn:T.
  - unfold bind, gets, noticeText_set_textContent, banner_set_className,
      banner_classList_add, banner_update. cbn.
    destruct (validate_token (js_string (importance notice))); [discriminate|].
    cbn. destruct nt as [[|h]|]; reflexivity.
  - unfold bind, gets, noticeText_set_textContent, banner_set_className,
      banner_classList_add, banner_update. cbn.
    destruct nt as [[|h]|]; reflexivity.
Qed.

(** A notice whose importance is not a class token: [classList.add]
    throws after the text and the base classes were set. *)
Lemma displayNotice_throws (notice : Notice) (w : World) cl tx e :
  noticeBanner (dom w) = Some cl -> noticeText (dom w) = Some tx ->
  truthy_string (importance notice) = true ->
  validate_token (js_string (importance notice)) = Some e ->
  displayNotice cfg notice w
  = Throw e (set_dom (mkDom (Some (parse_className "notice-banner active"))
                            (Some (message notice))
                            (closeNotice (dom w)) (logsContainer (dom w))) w).
Proof.
  intros Hb Ht T V. unfold displayNotice.
  destruct w as [[lg cn nt] [bn tx' cb lc] q k t c]. cbn in Hb, Ht. subst.
  unfold bind, gets, noticeText_set_textContent, banner_set_className,
    banner_classList_add, banner_update. cbn.
  rewrite T, V. reflexivity.
Qed.

End Equations.

Section Frames.

Variable cfg : Config.
Variable noticeList : list Notice.
Variable date : DateHost.

Lemma setupCloseButton_eq (w : World) :
  setupCloseButton w = Ok tt (wired w).
Proof.
  unfold setupCloseButton, wired. erewrite bind_Ok by reflexivity.
  unfold closeBtn_addEventListener, console_error, modify.
  destruct (closeNotice (dom w)) eqn:E; [rewrite E|]; reflexivity.
Qed.

Lemma timerCallback_run (w : World) : host_run timerCallback w = unshown w.
Proof.
  unfold host_run, timerCallback, unshown, banner_classList_remove.
  rewrite active_is_token. unfold banner_update.
  now destruct (noticeBanner (dom w)).
Qed.

Lemma unshown_idem (w : World) : unshown (unshown w) = unshown w.
Proof.
  unfold unshown. destruct w as [s [bn tx cb lc] q k t c]. cbn.
  destruct bn as [cl|]; cbn; [|reflexivity].
  now rewrite token_remove_idem.
Qed.

Lemma fold_unshown {A} (l : list A) (w : World) :
  fold_left (fun w' _ => host_run timerCallback w') l w
  = match l with [] => w | _ => unshown w end.
Proof.
  destruct l as [|a l]; [reflexivity|]. cbn. rewrite timerCallback_run.
  induction l as [|b l IH]; [reflexivity|]. cbn.
  now rewrite timerCallback_run, unshown_idem.
Qed.

Lemma elapse_eq (dt : Z) (w : World) :
  elapse dt w
  = let t := now w + Z.max 0 dt in
    let w1 := set_timers (filter (fun tm => negb (due t tm)) (timers w))
                         (set_now t w) in
    match filter (due t) (timers w) with
    | [] => w1
    | _ => unshown w1
    end.
Proof. unfold elapse. now rewrite fold_unshown. Qed.

Lemma closeListener_eq (w : World) :
  closeListener cfg noticeList date w
  = Ok tt (logged cfg noticeList date "Notice manually closed by user" None
                  (hidden w)).
Proof.
  unfold closeListener. erewrite bind_Ok by apply hideNotice_eq.
  apply addLogEntry_eq.
Qed.

Lemma init_eq (w : World) :
  init cfg noticeList date w
  = let w1 := logged cfg noticeList date "Broadcast system initialized" None w in
    let finish w3 :=
      logged cfg noticeList date "Broadcast system ready" None
             (wired (render noticeList date w3)) in
    match noticeList with
    | [] => Ok tt (finish (logged cfg noticeList date "No notices available"
                                  None w1))
    | latestNotice :: _ =>
        match displayNotice cfg latestNotice w1 with
        | Ok _ w2 =>
            Ok tt (finish (logged cfg noticeList date
                             ("Displaying notice: " ++ message latestNotice)
                             (importance latestNotice) w2))
        | Throw e w2 => Throw e w2
        end
    end.
Proof.
  unfold init. erewrite bind_Ok by apply addLogEntry_eq.
  destruct noticeList as [|n rest]; cbn zeta.
  - erewrite bind_Ok by apply addLogEntry_eq.
    erewrite bind_Ok by apply updateLogsUI_eq.
    erewrite bind_Ok by apply setupCloseButton_eq.
    apply addLogEntry_eq.
  - destruct (displayNotice cfg n _) as [[] w2|e w2] eqn:D.
    + erewrite bind_Ok by (erewrite bind_Ok by exact D; apply addLogEntry_eq).
      erewrite bind_Ok by apply updateLogsUI_eq.
      erewrite bind_Ok by apply setupCloseButton_eq.
      apply addLogEntry_eq.
    + erewrite bind_Throw by (erewrite bind_Throw by exact D; reflexivity).
      reflexivity.
Qed.

End Frames.

(* ------------------------------------------------------------------ *)
(** ** What each step leaves alone *)

Section Projections.

Variable cfg : Config.
Variable noticeList : list Notice.
Variable date : DateHost.

Lemma store_render w : store (render noticeList date w) = store w.
Proof. unfold render. now destruct (logsContainer (dom w)). Qed.
Lemma timers_render w : timers (render noticeList date w) = timers w.
Proof. unfold render. now destruct (logsContainer (dom w)). Qed.
Lemma timerSeq_render w : timerSeq (render noticeList date w) = timerSeq w.
Proof. unfold render. now destruct (logsContainer (dom w)). Qed.
Lemma now_render w : now (render noticeList date w) = now w.
Proof. unfold render. now destruct (logsContainer (dom w)). Qed.
Lemma console_render w : console (render noticeList date w) = console w.
Proof. unfold render. now destruct (logsContainer (dom w)). Qed.
Lemma banner_render w : noticeBanner (dom (render noticeList date w)) = noticeBanner (dom w).
Proof. unfold render. now destruct (logsContainer (dom w)). Qed.
Lemma text_render w : noticeText (dom (render noticeList date w)) = noticeText (dom w).
Proof. unfold render. now destruct (logsContainer (dom w)). Qed.
Lemma close_render w : closeNotice (dom (render noticeList date w)) = closeNotice (dom w).
Proof. unfold render. now destruct (logsContainer (dom w)). Qed.
Lemma container_render w :
  logsContainer (dom (render noticeList date w))
  = match logsContainer (dom w) with
    | Some _ => Some (rendered noticeList date (logs (store w)))
    | None => None
    end.
Proof.
  unfold render. destruct (logsContainer (dom w)) eqn:E; [|exact E].
  reflexivity.
Qed.

Lemma logs_logged m ty w :
  logs (store (logged cfg noticeList date m ty w))
  = capped cfg (entryAt date (now w) m ty :: logs (store w)).
Proof. unfold logged. now rewrite store_render. Qed.
Lemma currentNotice_logged m ty w :
  currentNotice (store (logged cfg noticeList date m ty w)) = currentNotice (store w).
Proof. unfold logged. now rewrite store_render. Qed.
Lemma noticeTimer_logged m ty w :
  noticeTimer (store (logged cfg noticeList date m ty w)) = noticeTimer (store w).
Proof. unfold logged. now rewrite store_render. Qed.
Lemma timers_logged m ty w : timers (logged cfg noticeList date m ty w) = timers w.
Proof. unfold logged. now rewrite timers_render. Qed.
Lemma timerSeq_logged m ty w : timerSeq (logged cfg noticeList date m ty w) = timerSeq w.
Proof. unfold logged. now rewrite timerSeq_render. Qed.
Lemma now_logged m ty w : now (logged cfg noticeList date m ty w) = now w.
Proof. unfold logged. now rewrite now_render. Qed.
Lemma console_logged m ty w : console (logged cfg noticeList date m ty w) = console w.
Proof. unfold logged. now rewrite console_render. Qed.
Lemma banner_logged m ty w :
  noticeBanner (dom (logged cfg noticeList date m ty w)) = noticeBanner (dom w).
Proof. unfold logged. now rewrite banner_render. Qed.
Lemma text_logged m ty w : noticeText (dom (logged cfg noticeList date m ty w)) = noticeText (dom w).
Proof. unfold logged. now rewrite text_render. Qed.
Lemma close_logged m ty w : closeNotice (dom (logged cfg noticeList date m ty w)) = closeNotice (dom w).
Proof. unfold logged. now rewrite close_render. Qed.

Lemma store_wired w : store (wired w) = store w.
Proof. unfold wired. now destruct (closeNotice (dom w)). Qed.
Lemma timers_wired w : timers (wired w) = timers w.
Proof. unfold wired. now destruct (closeNotice (dom w)). Qed.
Lemma timerSeq_wired w : timerSeq (wired w) = timerSeq w.
Proof. unfold wired. now destruct (closeNotice (dom w)). Qed.
Lemma now_wired w : now (wired w) = now w.
Proof. unfold wired. now destruct (closeNotice (dom w)). Qed.
Lemma banner_wired w : noticeBanner (dom (wired w)) = noticeBanner (dom w).
Proof. unfold wired. now destruct (closeNotice (dom w)). Qed.
Lemma text_wired w : noticeText (dom (wired w)) = noticeText (dom w).
Proof. unfold wired. now destruct (closeNotice (dom w)). Qed.
Lemma console_wired w :
  console (wired w)
  = match closeNotice (dom w) with
    | Some _ => console w
    | None => (console w ++ ["Close button element not found"])%list
    end.
Proof. unfold wired. now destruct (closeNotice (dom w)). Qed.

Lemma store_unshown w : store (unshown w) = store w.
Proof. unfold unshown. now destruct (noticeBanner (dom w)). Qed.
Lemma timers_unshown w : timers (unshown w) = timers w.
Proof. unfold unshown. now destruct (noticeBanner (dom w)). Qed.
Lemma timerSeq_unshown w : timerSeq (unshown w) = timerSeq w.
Proof. unfold unshown. now destruct (noticeBanner (dom w)). Qed.
Lemma now_unshown w : now (unshown w) = now w.
Proof. unfold unshown. now destruct (noticeBanner (dom w)). Qed.
Lemma console_unshown w : console (unshown w) = console w.
Proof. unfold unshown. now destruct (noticeBanner (dom w)). Qed.
Lemma visible_unshown w : visible (unshown w) = false.
Proof.
  unfold visible, unshown. destruct (noticeBanner (dom w)) eqn:E; cbn.
  - apply has_token_remove.
  - now rewrite E.
Qed.

Lemma logs_hidden w : logs (store (hidden w)) = logs (store w).
Proof.
  unfold hidden. destruct (truthy_handle _); cbn; now rewrite store_unshown.
Qed.
Lemma currentNotice_hidden w :
  currentNotice (store (hidden w)) = currentNotice (store w).
Proof.
  unfold hidden. destruct (truthy_handle _); cbn; now rewrite store_unshown.
Qed.
Lemma timerSeq_hidden w : timerSeq (hidden w) = timerSeq w.
Proof.
  unfold hidden. destruct (truthy_handle _); cbn; now rewrite timerSeq_unshown.
Qed.
Lemma now_hidden w : now (hidden w) = now w.
Proof.
  unfold hidden. destruct (truthy_handle _); cbn; now rewrite now_unshown.
Qed.
Lemma console_hidden w : console (hidden w) = console w.
Proof.
  unfold hidden. destruct (truthy_handle _); cbn; now rewrite console_unshown.
Qed.
Lemma dom_hidden w : dom (hidden w) = dom (unshown w).
Proof. unfold hidden. now destruct (truthy_handle _). Qed.

Lemma store_elapse dt w : store (elapse dt w) = store w.
Proof.
  rewrite elapse_eq. cbn zeta. destruct (filter _ _); [reflexivity|].
  now rewrite store_unshown.
Qed.
Lemma now_elapse dt w : now (elapse dt w) = now w + Z.max 0 dt.
Proof.
  rewrite elapse_eq. cbn zeta. destruct (filter _ _); [reflexivity|].
  now rewrite now_unshown.
Qed.
Lemma timerSeq_elapse dt w : timerSeq (elapse dt w) = timerSeq w.
Proof.
  rewrite elapse_eq. cbn zeta. destruct (filter _ _); [reflexivity|].
  now rewrite timerSeq_unshown.
Qed.
Lemma console_elapse dt w : console (elapse dt w) = console w.
Proof.
  rewrite elapse_eq. cbn zeta. destruct (filter _ _); [reflexivity|].
  now rewrite console_unshown.
Qed.
Lemma timers_elapse dt w :
  timers (elapse dt w)
  = filter (fun tm => negb (due (now w + Z.max 0 dt) tm)) (timers w).
Proof.
  rewrite elapse_eq. cbn zeta. destruct (filter (due _) _); [reflexivity|].
  now rewrite timers_unshown.
Qed.

End Projections.

Create Rewrite HintDb frame.

#[export] Hint Rewrite
  store_render timers_render timerSeq_render now_render console_render
  banner_render text_render close_render
  logs_logged currentNotice_logged noticeTimer_logged timers_logged
  timerSeq_logged now_logged console_logged banner_logged text_logged
  close_logged
  store_wired timers_wired timerSeq_wired now_wired banner_wired text_wired
  store_unshown timers_unshown timerSeq_unshown now_unshown console_unshown
  logs_hidden currentNotice_hidden timerSeq_hidden now_hidden console_hidden
  dom_hidden
  store_elapse now_elapse timerSeq_elapse console_elapse timers_elapse
  : frame.

(* ------------------------------------------------------------------ *)
(** ** Events and invariants *)

Section Invariants.

Variable cfg : Config.
Variable noticeList : list Notice.
Variable date : DateHost.

(** The three ways [displayNotice] can end. *)
Lemma displayNotice_cases (notice : Notice) (w : World) :
  (banner_ready w = false /\
   displayNotice cfg notice w
   = Ok tt (set_console (console w ++ ["Notice banner elements not found"]) w))
  \/ (banner_ready w = true /\ styleable notice = true /\
      displayNotice cfg notice w = Ok tt (shown cfg notice w))
  \/ (banner_ready w = true /\ styleable notice = false /\
      exists e,
        displayNotice cfg notice w
        = Throw e (set_dom (mkDom (Some (parse_className "notice-banner active"))
                                  (Some (message notice))
                                  (closeNotice (dom w)) (logsContainer (dom w)))
                           w)).
Proof.
  destruct (banner_ready w) eqn:R.
  - right. destruct (styleable notice) eqn:Hs.
    + left. repeat split. now apply displayNotice_shown.
    + right. repeat split. unfold styleable in Hs. unfold banner_ready in R.
      destruct (truthy_string (importance notice)) eqn:T; [|discriminate].
      destruct (validate_token _) as [e|] eqn:V; [|discriminate].
      destruct (noticeBanner (dom w)) as [cl|] eqn:B; [|discriminate].
      destruct (noticeText (dom w)) as [tx|] eqn:X; [|discriminate].
      exists e. eapply displayNotice_throws; eassumption.
  - left. split; [reflexivity|]. now apply displayNotice_missing.
Qed.

Lemma click_eq (w : World) :
  click cfg noticeList date w
  = match closeNotice (dom w) with
    | Some k =>
        Nat.iter k (fun w' =>
          logged cfg noticeList date "Notice manually closed by user" None
                 (hidden w')) w
    | None => w
    end.
Proof.
  unfold click. destruct (closeNotice (dom w)) as [k|]; [|reflexivity].
  induction k as [|k IH]; [reflexivity|]. rewrite !Nat.iter_succ, IH.
  unfold host_run. now rewrite closeListener_eq.
Qed.

Section Keeping.

Variable P : World -> Prop.
Hypothesis P_logged :
  forall m ty w, P w -> P (logged cfg noticeList date m ty w).
Hypothesis P_hidden : forall w, P w -> P (hidden w).
Hypothesis P_elapse : forall dt w, P w -> P (elapse dt w).

Lemma click_keeps (w : World) : P w -> P (click cfg noticeList date w).
Proof.
  rewrite click_eq. destruct (closeNotice (dom w)) as [k|]; [|trivial].
  intros H. induction k as [|k IH]; [exact H|]. rewrite Nat.iter_succ. auto.
Qed.

Lemma quiet_keeps (e : Event) (w : World) :
  displays e = false -> P w -> P (after cfg noticeList date e w).
Proof.
  unfold after. destruct e; cbn [call displays]; try discriminate; intros _ H.
  - now rewrite hideNotice_eq; cbn; auto.
  - now rewrite addLogEntry_eq; cbn; auto.
  - exact H.
  - cbn. now apply click_keeps.
  - cbn. auto.
Qed.

Hypothesis P_render : forall w, P w -> P (render noticeList date w).
Hypothesis P_wired : forall w, P w -> P (wired w).
Hypothesis P_display :
  forall n w, P w -> P (world_of (displayNotice cfg n w)).

Lemma init_keeps (w : World) : P w -> P (world_of (init cfg noticeList date w)).
Proof.
  intros H. rewrite init_eq. cbn zeta.
  destruct noticeList as [|n rest]; cbn [world_of]; [auto 10|].
  pose proof (P_display n _ (P_logged "Broadcast system initialized" None w H))
    as D.
  destruct (displayNotice cfg n _) as [[] w2|e w2]; cbn in *; auto 10.
Qed.

Lemma after_keeps (e : Event) (w : World) :
  P w -> P (after cfg noticeList date e w).
Proof.
  destruct (displays e) eqn:D; [|now apply quiet_keeps].
  destruct e; try discriminate; unfold after; cbn [call]; intros H.
  - now apply init_keeps.
  - now apply P_display.
Qed.

Lemma run_keeps (es : list Event) :
  forall w, P w -> P (run cfg noticeList date es w).
Proof.
  induction es as [|e es IH]; intros w H; [exact H|].
  cbn. apply IH. now apply after_keeps.
Qed.

End Keeping.

(** *** At most one pending timer *)

Lemma one_timer_ext (w w' : World) :
  timers w' = timers w -> noticeTimer (store w') = noticeTimer (store w) ->
  one_timer w -> one_timer w'.
Proof. unfold one_timer. intros -> ->. trivial. Qed.

Lemma one_timer_cancelled (w : World) :
  one_timer w -> truthy_handle (noticeTimer (store w)) = true ->
  cancel (noticeTimer (store w)) (timers w) = [].
Proof.
  intros [E|(tm & E & Hn & _)] _; rewrite E.
  - now destruct (noticeTimer (store w)).
  - rewrite Hn. cbn. now rewrite Nat.eqb_refl.
Qed.

Lemma one_timer_idle (w : World) :
  one_timer w -> truthy_handle (noticeTimer (store w)) = false ->
  timers w = [].
Proof.
  intros [E|(tm & E & Hn & Hz)] T; [exact E|].
  rewrite Hn in T. cbn in T. apply negb_false_iff, Nat.eqb_eq in T. contradiction.
Qed.

Lemma timers_shown (n : Notice) (w : World) :
  one_timer w ->
  timers (shown cfg n w)
  = [mkTimer (S (timerSeq w)) (now w + timer_delay (noticeDisplayTime cfg))].
Proof.
  intros H. unfold shown. cbn [timers].
  destruct (truthy_handle (noticeTimer (store w))) eqn:T.
  - now rewrite one_timer_cancelled.
  - now rewrite one_timer_idle.
Qed.

Lemma one_timer_shown (n : Notice) (w : World) :
  one_timer w -> one_timer (shown cfg n w).
Proof.
  intros H. right. eexists. split; [now apply timers_shown|].
  split; [reflexivity|]. cbn. discriminate.
Qed.

Lemma one_timer_hidden (w : World) : one_timer w -> one_timer (hidden w).
Proof.
  intros H. unfold hidden.
  destruct (truthy_handle (noticeTimer (store w))) eqn:T.
  - left. cbn. rewrite timers_unshown. now apply one_timer_cancelled.
  - eapply one_timer_ext; [| |exact H]; now autorewrite with frame.
Qed.

Lemma one_timer_elapse (dt : Z) (w : World) :
  one_timer w -> one_timer (elapse dt w).
Proof.
  intros [E|(tm & E & Hn & Hz)]; unfold one_timer;
    autorewrite with frame; rewrite E; cbn.
  - now left.
  - destruct (due _ tm); cbn; [now left|]. right. now exists tm.
Qed.

Lemma one_timer_display (n : Notice) (w : World) :
  one_timer w -> one_timer (world_of (displayNotice cfg n w)).
Proof.
  intros H.
  destruct (displayNotice_cases n w)
    as [(_ & ->)|[(_ & _ & ->)|(_ & _ & e & ->)]]; cbn [world_of].
  - exact H.
  - now apply one_timer_shown.
  - exact H.
Qed.

Lemma one_timer_fresh (d : Dom) (t0 : Z) : one_timer (fresh_world d t0).
Proof. now left. Qed.

Lemma one_timer_after (e : Event) (w : World) :
  one_timer w -> one_timer (after cfg noticeList date e w).
Proof.
  apply after_keeps.
  - intros. eapply one_timer_ext; [| |eassumption]; now autorewrite with frame.
  - apply one_timer_hidden.
  - apply one_timer_elapse.
  - intros. eapply one_timer_ext; [| |eassumption]; now autorewrite with frame.
  - intros. eapply one_timer_ext; [| |eassumption]; now autorewrite with frame.
  - apply one_timer_display.
Qed.

Lemma one_timer_reachable (w : World) :
  reachable cfg noticeList date w -> one_timer w.
Proof.
  intros (d & t0 & es & ->). apply run_keeps; try apply one_timer_fresh.
  - intros. eapply one_timer_ext; [| |eassumption]; now autorewrite with frame.
  - apply one_timer_hidden.
  - apply one_timer_elapse.
  - intros. eapply one_timer_ext; [| |eassumption]; now autorewrite with frame.
  - intros. eapply one_timer_ext; [| |eassumption]; now autorewrite with frame.
  - apply one_timer_display.
Qed.

End Invariants.

(* ------------------------------------------------------------------ *)
(** ** The capped log *)

Lemma firstn_app_firstn {A} (n : nat) (a b : list A) :
  firstn n (a ++ firstn n b) = firstn n (a ++ b).
Proof.
  rewrite !firstn_app, firstn_firstn. f_equal. f_equal. lia.
Qed.

Section Cap.

Variable cfg : Config.
Variable noticeList : list Notice.
Variable date : DateHost.

Hypothesis cap_nonneg : 0 <= maxLogEntries cfg.

Lemma capped_firstn (l : list LogEntry) :
  capped cfg l = firstn (Z.to_nat (maxLogEntries cfg)) l.
Proof.
  unfold capped, slice0.
  destruct (Z.of_nat (length l) >? maxLogEntries cfg) eqn:E.
  - apply Z.gtb_gt in E.
    destruct (maxLogEntries cfg <? 0) eqn:N; [apply Z.ltb_lt in N; lia|].
    f_equal. lia.
  - symmetry. apply firstn_all2.
    assert (~ Z.of_nat (length l) > maxLogEntries cfg)
      by (rewrite <- Z.gtb_gt; congruence).
    lia.
Qed.

Lemma within_cap_ext (w w' : World) :
  logs (store w') = logs (store w) -> within_cap cfg w -> within_cap cfg w'.
Proof. unfold within_cap. now intros ->. Qed.

Lemma within_cap_logged m ty w :
  within_cap cfg (logged cfg noticeList date m ty w).
Proof.
  unfold within_cap. rewrite logs_logged, capped_firstn.
  pose proof (firstn_le_length (Z.to_nat (maxLogEntries cfg))
                (entryAt date (now w) m ty :: logs (store w))).
  lia.
Qed.

Lemma within_cap_display n w :
  within_cap cfg w -> within_cap cfg (world_of (displayNotice cfg n w)).
Proof.
  destruct (displayNotice_cases cfg n w)
    as [(_ & ->)|[(_ & _ & ->)|(_ & _ & e & ->)]]; cbn [world_of];
    apply within_cap_ext; reflexivity.
Qed.

Lemma within_cap_run (es : list Event) (w : World) :
  within_cap cfg w -> within_cap cfg (run cfg noticeList date es w).
Proof.
  apply run_keeps.
  - intros. apply within_cap_logged.
  - intros ?. apply within_cap_ext. now autorewrite with frame.
  - intros ? ?. apply within_cap_ext. now autorewrite with frame.
  - intros ?. apply within_cap_ext. now autorewrite with frame.
  - intros ?. apply within_cap_ext. now autorewrite with frame.
  - apply within_cap_display.
Qed.

Lemma stamped_length (calls : list (Z * string * option string)) :
  forall t, length (stamped date calls t) = length calls.
Proof.
  induction calls as [|[[d m] ty] c IH]; intros t; cbn; [reflexivity|].
  now rewrite IH.
Qed.

Lemma appendAll_cons dt msg ty calls w :
  appendAll cfg noticeList date ((dt, msg, ty) :: calls) w
  = appendAll cfg noticeList date calls
      (logged cfg noticeList date msg ty (elapse dt w)).
Proof. unfold appendAll. cbn [fold_left]. now rewrite addLogEntry_eq. Qed.

Lemma appendAll_logs (calls : list (Z * string * option string)) :
  forall w,
    within_cap cfg w ->
    logs (store (appendAll cfg noticeList date calls w))
    = firstn (Z.to_nat (maxLogEntries cfg))
             (rev (stamped date calls (now w)) ++ logs (store w)).
Proof.
  induction calls as [|[[dt msg] ty] calls IH]; intros w H.
  - cbn. symmetry. apply firstn_all2. unfold within_cap in H. lia.
  - rewrite appendAll_cons, IH by apply within_cap_logged.
    autorewrite with frame. rewrite capped_firstn, firstn_app_firstn.
    cbn [stamped rev]. now rewrite <- app_assoc.
Qed.

Lemma appendAll_overflow (calls : list (Z * string * option string)) (w : World) :
  Z.of_nat (length calls) > maxLogEntries cfg ->
  logs (store (appendAll cfg noticeList date calls w))
  = firstn (Z.to_nat (maxLogEntries cfg)) (rev (stamped date calls (now w))).
Proof.
  intros N. destruct calls as [|[[dt msg] ty] calls]; [cbn in N; lia|].
  rewrite appendAll_cons, appendAll_logs by apply within_cap_logged.
  autorewrite with frame. rewrite capped_firstn, firstn_app_firstn.
  cbn [stamped rev].
  change (rev (stamped date calls (now w + Z.max 0 dt))
            ++ entryAt date (now w + Z.max 0 dt) msg ty :: logs (store w))%list
    with (rev (stamped date calls (now w + Z.max 0 dt))
            ++ [entryAt date (now w + Z.max 0 dt) msg ty] ++ logs (store w))%list.
  rewrite app_assoc, firstn_app.
  rewrite length_app, length_rev, stamped_length. cbn [length].
  cbn [length] in N.
  replace (Z.to_nat (maxLogEntries cfg) - (length calls + 1))%nat with 0%nat by lia.
  cbn. now rewrite app_nil_r.
Qed.

End Cap.

(* ------------------------------------------------------------------ *)
(** ** Properties of the public interface *)

(** C9.  [getAllNotices] returns the static notice list as it is and
    changes no component of the world (log, current notice, timer, page);
    two calls in a row return the same list. *)
Theorem getAllNotices_readonly (cfg : Config) (noticeList : list Notice)
    (date : DateHost) (w : World) :
  getAllNotices noticeList w = Ok noticeList w
  /\ (first <- getAllNotices noticeList ;;
      second <- getAllNotices noticeList ;;
      ret (first, second)) w = Ok (noticeList, noticeList) w
  /\ after cfg noticeList date CallGetAllNotices w = w
  /\ getAllNotices notices w = Ok notices w.
Proof. repeat split. Qed.

(** C5.  On a page that has the log container, [updateLogsUI] discards
    the container's children and rebuilds them as: the header "Notice
    History:"; one [div] per static notice in list order, of class
    "log-entry log-" followed by the notice's importance, whose markup
    shows in brackets the locale date and the locale time of the notice's
    own timestamp, and then the notice's message; the header "System
    Logs:"; one [div] per runtime log entry in store order, which is
    newest first, of class "log-entry log-" followed by the entry's type,
    whose markup shows in brackets the locale time only of the entry's
    timestamp, and then the entry's message.  Every static notice
    therefore comes before every runtime entry.  Nothing else in the
    world changes. *)
Theorem updateLogsUI_rebuilds (noticeList : list Notice) (date : DateHost)
    (w : World) (old : list Element) :
  logsContainer (dom w) = Some old ->
  exists w' children,
    let quote := String "034"%char "" in
    let newline := String "010"%char "" in
    let markup := fun stamp text =>
      newline ++ "                <span class=" ++ quote ++ "log-timestamp"
        ++ quote ++ ">[" ++ stamp ++ "]</span>"
        ++ newline ++ "                <span class=" ++ quote ++ "log-message"
        ++ quote ++ ">" ++ text ++ "</span>"
        ++ newline ++ "            " in
    let noticeDiv := fun n : Notice =>
      mkElement
        ("log-entry log-"
           ++ match importance n with Some s => s | None => "undefined" end)
        (InnerHTML
           (markup (toLocaleDateString date (timestamp n) ++ " "
                      ++ toLocaleTimeString date (timestamp n))
                   (message n))) in
    let logDiv := fun e : LogEntry =>
      mkElement
        ("log-entry log-" ++ log_type e)
        (InnerHTML
           (markup (toLocaleTimeString date (log_timestamp e)) (log_message e))) in
    updateLogsUI noticeList date w = Ok tt w'
    /\ logsContainer (dom w') = Some children
    /\ children
       = (mkElement "log-section-header" (TextContent "Notice History:")
            :: map noticeDiv noticeList
            ++ mkElement "log-section-header" (TextContent "System Logs:")
            :: map logDiv (logs (store w)))%list
    /\ (forall i j n e,
          nth_error noticeList i = Some n ->
          nth_error (logs (store w)) j = Some e ->
          nth_error children (1 + i) = Some (noticeDiv n)
          /\ nth_error children (2 + length noticeList + j) = Some (logDiv e)
          /\ (1 + i < 2 + length noticeList + j)%nat)
    /\ store w' = store w /\ timers w' = timers w /\ console w' = console w
    /\ noticeBanner (dom w') = noticeBanner (dom w)
    /\ noticeText (dom w') = noticeText (dom w)
    /\ closeNotice (dom w') = closeNotice (dom w).
Proof.
  intros Hc.
  exists (render noticeList date w), (rendered noticeList date (logs (store w))).
  cbn zeta.
  split; [apply updateLogsUI_eq|].
  split; [now rewrite container_render, Hc|].
  split; [reflexivity|].
  split.
  { intros i j n e Hi Hj. unfold rendered.
    assert (Li : (i < length noticeList)%nat)
      by (apply nth_error_Some; congruence).
    split; [|split; [|lia]].
    - cbn [Nat.add nth_error]. rewrite nth_error_app1 by (rewrite length_map; lia).
      rewrite nth_error_map, Hi. reflexivity.
    - change (2 + length noticeList + j)%nat
        with (S (S (length noticeList) + j)).
      cbn [nth_error]. rewrite nth_error_app2 by (rewrite length_map; lia).
      rewrite length_map.
      replace (S (length noticeList) + j - length noticeList)%nat with (S j) by lia.
      cbn [nth_error]. rewrite nth_error_map, Hj. reflexivity. }
  autorewrite with frame. repeat split.
Qed.

(** The world after [init] on a full page, whose container and log are
    not empty: re-rendering puts notice B's element, stamped with its own
    date and time, at index 1, and the newest log entry's element, stamped
    with the time only, right after the second header. *)
Lemma updateLogsUI_rebuilds_witness :
  logsContainer (dom initialised_world)
  = Some (rendered [notice_B; notice_A] sample_date
                   (logs (store initialised_world)))
  /\ exists w' children,
       updateLogsUI [notice_B; notice_A] sample_date initialised_world = Ok tt w'
       /\ logsContainer (dom w') = Some children
       /\ length children = 7%nat
       /\ nth_error children 1
          = Some (mkElement "log-entry log-warning"
                    (InnerHTML
                       (String "010"%char
                          ("                <span class="
                             ++ String "034"%char
                             ("log-timestamp"
                                ++ String "034"%char
                                (">[date 2025-02-25T12:45:00Z time 2025-02-25T12:45:00Z]</span>"
                                   ++ String "010"%char
                                   ("                <span class="
                                      ++ String "034"%char
                                      ("log-message"
                                         ++ String "034"%char
                                         (">B</span>"
                                            ++ String "010"%char
                                            "            ")))))))))
       /\ nth_error children 4
          = Some (mkElement "log-entry log-info"
                    (InnerHTML
                       (String "010"%char
                          ("                <span class="
                             ++ String "034"%char
                             ("log-timestamp"
                                ++ String "034"%char
                                (">[time @100]</span>"
                                   ++ String "010"%char
                                   ("                <span class="
                                      ++ String "034"%char
                                      ("log-message"
                                         ++ String "034"%char
                                         (">Broadcast system ready</span>"
                                            ++ String "010"%char
                                            "            "))))))))).
Proof.
  assert (Hc : logsContainer (dom initialised_world)
               = Some (rendered [notice_B; notice_A] sample_date
                                (logs (store initialised_world))))
    by (vm_compute; reflexivity).
  split; [exact Hc|].
  destruct (updateLogsUI_rebuilds [notice_B; notice_A] sample_date
              initialised_world _ Hc)
    as (w' & children & H).
  cbv zeta in H. destruct H as (H1 & H2 & H3 & _).
  exists w', children. split; [exact H1|]. split; [exact H2|].
  rewrite H3.
  split; [vm_compute; reflexivity|].
  split; vm_compute; reflexivity.
Defined.

(** C2.  With a cap [C >= 0]: after [N > C] calls of [addLogEntry], from
    any world, the log holds exactly [C] entries; they are the [C] most
    recent ones, newest first, the first [N - C] calls having been
    evicted.  And after every event of every run from a freshly loaded
    page the log is no longer than the cap, which is 50 in the source's
    configuration. *)
Theorem addLogEntry_cap (cfg : Config) (noticeList : list Notice)
    (date : DateHost) :
  0 <= maxLogEntries cfg ->
  (forall (calls : list (Z * string * option string)) (w : World),
      Z.of_nat (length calls) > maxLogEntries cfg ->
      let C := Z.to_nat (maxLogEntries cfg) in
      let made := stamped date calls (now w) in
      let kept := logs (store (appendAll cfg noticeList date calls w)) in
      length kept = C
      /\ kept = firstn C (rev made)
      /\ kept = rev (skipn (length calls - C) made))
  /\ (forall (d : Dom) (t0 : Z) (es : list Event),
        Z.of_nat (length (logs (store (run cfg noticeList date es
                                           (fresh_world d t0)))))
        <= maxLogEntries cfg)
  /\ maxLogEntries config = 50.
Proof.
  intros Hc. split; [|split; [|reflexivity]].
  - intros calls w N C made kept.
    assert (E : kept = firstn C (rev made))
      by (now apply appendAll_overflow).
    assert (L : length made = length calls) by apply stamped_length.
    split; [|split; [exact E|]].
    + rewrite E, length_firstn, length_rev, L. subst C. lia.
    + rewrite E, firstn_rev, L. reflexivity.
  - intros d t0 es. apply within_cap_run; [exact Hc|].
    unfold within_cap. cbn. exact Hc.
Qed.

(** Three calls under a cap of two: the first entry is evicted. *)
Lemma addLogEntry_cap_witness :
  0 <= maxLogEntries small_config
  /\ Z.of_nat (length three_calls) > maxLogEntries small_config
  /\ logs (store (appendAll small_config notices sample_date three_calls
                            (fresh_world full_page 0)))
     = [mkLogEntry "@5" "third" "info"; mkLogEntry "@5" "second" "warning"].
Proof.
  assert (H0 : 0 <= maxLogEntries small_config) by (cbn; lia).
  assert (H1 : Z.of_nat (length three_calls) > maxLogEntries small_config)
    by (cbn; lia).
  split; [exact H0|]. split; [exact H1|].
  destruct (addLogEntry_cap small_config notices sample_date H0) as [H _].
  destruct (H three_calls (fresh_world full_page 0) H1) as (_ & -> & _).
  reflexivity.
Defined.

(* ------------------------------------------------------------------ *)
(** ** Hiding *)

Lemma hidden_idem (w : World) : hidden (hidden w) = hidden w.
Proof.
  unfold hidden, unshown.
  destruct w as [[lg cn [[|h]|]] [[cl|] tx cb lc] q k t c]; cbn;
    rewrite ?token_remove_idem; reflexivity.
Qed.

Lemma unshown_invisible (w : World) : visible w = false -> unshown w = w.
Proof.
  unfold visible, unshown.
  destruct w as [s [[cl|] tx cb lc] q k t c]; cbn; [|reflexivity].
  intros H. now rewrite token_remove_absent.
Qed.

Lemma visible_hidden (w : World) : visible (hidden w) = false.
Proof.
  unfold visible. rewrite dom_hidden. apply visible_unshown.
Qed.

Lemma hideTimes_eq (n : nat) (w : World) : hideTimes n w = Nat.iter n hidden w.
Proof.
  unfold hideTimes. induction n as [|n IH]; [reflexivity|].
  rewrite !Nat.iter_succ, IH. now rewrite hideNotice_eq.
Qed.

(** C4, in the state the banner's own timer leaves behind: the banner is
    hidden and no timer is pending, yet [hideNotice] changes the world,
    because the store still holds the handle of the timer that fired and
    the call resets it. *)
Lemma hideNotice_resets_stale_handle :
  visible autohidden_world = false
  /\ timers autohidden_world = []
  /\ hideNotice autohidden_world <> Ok tt autohidden_world.
Proof.
  split; [vm_compute; reflexivity|]. split; [vm_compute; reflexivity|].
  intros H.
  apply (f_equal (fun r => noticeTimer (store (world_of r)))) in H.
  vm_compute in H. discriminate.
Qed.

(** C4, as the code has it.  [hideNotice] never throws and is idempotent:
    a second call right after the first changes nothing.  When the banner
    is already hidden and the store holds no timer handle, a call leaves
    the world as it is.  When the banner is hidden and no timer is
    pending in the host, a call changes nothing but the handle in the
    store: a handle left there by a timer that has fired becomes none,
    and the page, the log, the current notice, the timer queue, the clock
    and the console are as before. *)
Theorem hideNotice_idempotent (w : World) :
  (exists w', hideNotice w = Ok tt w' /\ hideNotice w' = Ok tt w'
              /\ visible w' = false)
  /\ (visible w = false -> noticeTimer (store w) = None ->
      hideNotice w = Ok tt w)
  /\ (visible w = false -> timers w = [] ->
      exists w', hideNotice w = Ok tt w'
                 /\ set_store (set_noticeTimer None (store w')) w'
                    = set_store (set_noticeTimer None (store w)) w
                 /\ noticeTimer (store w')
                    = match noticeTimer (store w) with
                      | Some (S _) => None
                      | v => v
                      end).
Proof.
  split; [|split].
  - exists (hidden w). rewrite !hideNotice_eq, hidden_idem.
    repeat split. apply visible_hidden.
  - intros V T. rewrite hideNotice_eq. unfold hidden. rewrite T. cbn.
    now rewrite unshown_invisible.
  - intros V T. exists (hidden w). split; [apply hideNotice_eq|].
    unfold hidden. rewrite (unshown_invisible w V).
    destruct w as [[lg cn [[|h]|]] d q k t c]; cbn in T; subst q;
      split; reflexivity.
Qed.

(** The handle of a timer that has fired stays in the store until the
    next [hideNotice] or [displayNotice]: hiding after the banner hid
    itself only resets that handle. *)
Example hide_after_timer_fired :
  visible autohidden_world = false
  /\ timers autohidden_world = []
  /\ noticeTimer (store autohidden_world) = Some 1%nat
  /\ returns (hideNotice autohidden_world) = true
  /\ noticeTimer (store (world_of (hideNotice autohidden_world))) = None
  /\ dom (world_of (hideNotice autohidden_world)) = dom autohidden_world
  /\ logs (store (world_of (hideNotice autohidden_world)))
     = logs (store autohidden_world)
  /\ currentNotice (store (world_of (hideNotice autohidden_world)))
     = currentNotice (store autohidden_world).
Proof.
  repeat match goal with |- _ /\ _ => split end; vm_compute; reflexivity.
Qed.

(** On a freshly loaded page nothing is shown and hiding changes nothing;
    once the banner's timer has fired, hiding resets the stored handle
    and nothing else. *)
Lemma hideNotice_idempotent_witness :
  visible (fresh_world full_page 0) = false
  /\ noticeTimer (store (fresh_world full_page 0)) = None
  /\ hideNotice (fresh_world full_page 0) = Ok tt (fresh_world full_page 0)
  /\ visible autohidden_world = false
  /\ timers autohidden_world = []
  /\ exists w',
       hideNotice autohidden_world = Ok tt w'
       /\ noticeTimer (store w') = None
       /\ set_store (set_noticeTimer None (store w')) w'
          = set_store (set_noticeTimer None (store autohidden_world))
                      autohidden_world.
Proof.
  destruct (hideNotice_idempotent (fresh_world full_page 0)) as (_ & H2 & _).
  destruct (hideNotice_idempotent autohidden_world) as (_ & _ & H3).
  assert (V : visible autohidden_world = false) by (vm_compute; reflexivity).
  assert (Q : timers autohidden_world = []) by (vm_compute; reflexivity).
  split; [reflexivity|]. split; [reflexivity|].
  split; [exact (H2 eq_refl eq_refl)|].
  split; [exact V|]. split; [exact Q|].
  destruct (H3 V Q) as (w' & E & F & G).
  exists w'. split; [exact E|]. split; [|exact F].
  rewrite G. vm_compute. reflexivity.
Defined.

(* ------------------------------------------------------------------ *)
(** ** Displaying *)

Lemma styleable_falsy (n : Notice) :
  truthy_string (importance n) = false -> styleable n = true.
Proof. unfold styleable. now intros ->. Qed.

Lemma styleable_token (n : Notice) (s : string) :
  importance n = Some s -> validate_token s = None ->
  styleable n = true /\ truthy_string (importance n) = true.
Proof.
  intros Hi V.
  assert (E : String.eqb s "" = false).
  { unfold validate_token in V. now destruct (String.eqb s ""). }
  unfold styleable. rewrite Hi. cbn [truthy_string js_string].
  rewrite E. cbn [negb]. rewrite V. now split.
Qed.

Lemma visible_shown (cfg : Config) (n : Notice) (w : World) :
  visible (shown cfg n w) = true.
Proof. unfold visible, shown, styled. cbn. apply has_token_add. Qed.

Lemma banner_ready_elapse (dt : Z) (w : World) :
  banner_ready (elapse dt w) = banner_ready w.
Proof.
  rewrite elapse_eq. cbn zeta. unfold banner_ready, unshown.
  destruct (filter _ _); [reflexivity|].
  destruct w as [s [[cl|] tx cb lc] q k t0 c]; reflexivity.
Qed.

(** C8.  For a notice whose importance is absent or empty, [displayNotice]
    does not throw; where the banner and the text region exist, the
    banner ends with the two base classes and nothing else, the message
    is rendered, the banner is visible and the notice becomes the current
    one. *)
Theorem displayNotice_without_importance (cfg : Config) (n : Notice) (w : World) :
  truthy_string (importance n) = false ->
  exists w',
    displayNotice cfg n w = Ok tt w'
    /\ (banner_ready w = true ->
        noticeBanner (dom w') = Some ["notice-banner"; "active"]
        /\ noticeText (dom w') = Some (message n)
        /\ visible w' = true
        /\ currentNotice (store w') = Some n).
Proof.
  intros F. pose proof (styleable_falsy n F) as Hs.
  destruct (displayNotice_cases cfg n w)
    as [(R & E)|[(R & _ & E)|(_ & Hn & _)]]; [| |congruence].
  - eexists. split; [exact E|]. congruence.
  - exists (shown cfg n w). split; [exact E|]. intros _.
    split; [|split; [reflexivity|split; [apply visible_shown|reflexivity]]].
    unfold shown, styled. rewrite F. reflexivity.
Qed.

(** A notice without importance on a full page. *)
Lemma displayNotice_without_importance_witness :
  truthy_string (importance notice_plain) = false
  /\ banner_ready (fresh_world full_page 0) = true
  /\ exists w',
       displayNotice config notice_plain (fresh_world full_page 0) = Ok tt w'
       /\ noticeBanner (dom w') = Some ["notice-banner"; "active"]
       /\ noticeText (dom w') = Some "P".
Proof.
  split; [reflexivity|]. split; [reflexivity|].
  destruct (displayNotice_without_importance config notice_plain
              (fresh_world full_page 0) eq_refl) as (w' & E & H).
  destruct (H eq_refl) as (B & T & _).
  exists w'. repeat split; assumption.
Defined.

(* ------------------------------------------------------------------ *)
(** ** The current notice *)

Section CurrentNotice.

Variable cfg : Config.
Variable noticeList : list Notice.
Variable date : DateHost.

Lemma currentNotice_display (m : Notice) (w : World) :
  currentNotice (store (world_of (displayNotice cfg m w)))
  = if (banner_ready w && styleable m)%bool then Some m
    else currentNotice (store w).
Proof.
  destruct (displayNotice_cases cfg m w)
    as [(-> & ->)|[(-> & -> & ->)|(-> & -> & e & ->)]]; reflexivity.
Qed.

Lemma currentNotice_quiet (e : Event) (w : World) :
  displays e = false ->
  currentNotice (store (after cfg noticeList date e w))
  = currentNotice (store w).
Proof.
  intros Q.
  apply (quiet_keeps cfg noticeList date
           (fun w' => currentNotice (store w') = currentNotice (store w)));
    try assumption; try reflexivity; intros; now autorewrite with frame.
Qed.

Lemma currentNotice_quiet_run (es : list Event) :
  forall w,
    forallb (fun e => negb (displays e)) es = true ->
    currentNotice (store (run cfg noticeList date es w))
    = currentNotice (store w).
Proof.
  induction es as [|e es IH]; intros w Q; [reflexivity|].
  cbn in Q. apply andb_prop in Q as [Q1 Q2]. apply negb_true_iff in Q1.
  cbn [run fold_left]. change (fold_left _ es ?x) with (run cfg noticeList date es x).
  now rewrite IH, currentNotice_quiet.
Qed.

Lemma currentNotice_hideTimes (k : nat) (w : World) :
  currentNotice (store (hideTimes k w)) = currentNotice (store w).
Proof.
  rewrite hideTimes_eq. induction k as [|k IH]; [reflexivity|].
  rewrite Nat.iter_succ. now autorewrite with frame.
Qed.

End CurrentNotice.

(** C10.  After a [displayNotice n] that found its elements and returned,
    the store's current notice is [n]; it stays [n] through any number of
    [hideNotice] calls, and through any run of events that do not run
    [displayNotice] (hiding, logging, reading the notices, clicks on the
    close button, timers firing).  A [displayNotice m] replaces it exactly
    when it finds the banner elements and does not throw. *)
Theorem hideNotice_keeps_currentNotice (cfg : Config) (noticeList : list Notice)
    (date : DateHost) (n : Notice) (w : World) :
  banner_ready w = true -> styleable n = true ->
  exists w1,
    displayNotice cfg n w = Ok tt w1
    /\ currentNotice (store w1) = Some n
    /\ (forall k, currentNotice (store (hideTimes k w1)) = Some n)
    /\ (forall es,
          forallb (fun e => negb (displays e)) es = true ->
          currentNotice (store (run cfg noticeList date es w1)) = Some n)
    /\ (forall m w2,
          currentNotice (store (world_of (displayNotice cfg m w2)))
          = if (banner_ready w2 && styleable m)%bool then Some m
            else currentNotice (store w2)).
Proof.
  intros R Hs. exists (shown cfg n w).
  split; [now apply displayNotice_shown|].
  split; [reflexivity|].
  split; [intros k; now rewrite currentNotice_hideTimes|].
  split; [intros es Q; now rewrite currentNotice_quiet_run|].
  intros m w2. apply currentNotice_display.
Qed.

(** Notice B shown on a full page, then hidden three times. *)
Lemma hideNotice_keeps_currentNotice_witness :
  banner_ready (fresh_world full_page 0) = true
  /\ styleable notice_B = true
  /\ exists w1,
       displayNotice config notice_B (fresh_world full_page 0) = Ok tt w1
       /\ currentNotice (store (hideTimes 3 w1)) = Some notice_B.
Proof.
  split; [reflexivity|]. split; [reflexivity|].
  destruct (hideNotice_keeps_currentNotice config notices sample_date notice_B
              (fresh_world full_page 0) eq_refl eq_refl)
    as (w1 & E & _ & H & _).
  exists w1. split; [exact E|apply H].
Defined.

(* ------------------------------------------------------------------ *)
(** ** The auto-hide timer *)

Section Timer.

Variable cfg : Config.

Lemma timer_delay_nonneg (d : Z) : 0 <= timer_delay d.
Proof. unfold timer_delay. lia. Qed.

Lemma banner_ready_shown (n : Notice) (w : World) :
  banner_ready (shown cfg n w) = true.
Proof. reflexivity. Qed.

(** A world with exactly one timer, due [d] from now, and a visible
    banner: it stays so for less than [d], and the timer fires at [d]. *)
Lemma elapse_single (w : World) (tm : Timer) (d t : Z) :
  timers w = [tm] -> fireAt tm = now w + d -> visible w = true -> 0 <= t ->
  (t < d -> visible (elapse t w) = true /\ timers (elapse t w) = [tm])
  /\ (d <= t -> visible (elapse t w) = false /\ timers (elapse t w) = []).
Proof.
  intros Hq Hf V Ht. rewrite !elapse_eq. cbn zeta. rewrite Hq. cbn [filter].
  unfold due. rewrite Hf, Z.max_r by exact Ht.
  split; intros Hd.
  - replace (now w + d <=? now w + t) with false
      by (symmetry; apply Z.leb_gt; lia).
    cbn. split; [|reflexivity]. unfold visible in *. exact V.
  - replace (now w + d <=? now w + t) with true
      by (symmetry; apply Z.leb_le; lia).
    cbn. split; [apply visible_unshown|]. now rewrite timers_unshown.
Qed.

End Timer.

(** C3.  In every reachable world at most one timer is pending.  A
    [displayNotice] that finds its elements leaves exactly one pending
    timer, a fresh one due after the configured duration, whatever was
    pending before.  After two such calls, with any time between them,
    the only pending timer is the second one: the banner stays visible
    for as long as less than the duration has passed since the second
    call, and is hidden once the duration has passed.  The duration of
    the source's configuration is 15000 ms. *)
Theorem one_pending_timer (cfg : Config) (noticeList : list Notice)
    (date : DateHost) :
  (forall w, reachable cfg noticeList date w -> (length (timers w) <= 1)%nat)
  /\ (forall w n,
        reachable cfg noticeList date w ->
        banner_ready w = true -> styleable n = true ->
        exists w1,
          displayNotice cfg n w = Ok tt w1
          /\ timers w1
             = [mkTimer (S (timerSeq w))
                        (now w + timer_delay (noticeDisplayTime cfg))]
          /\ noticeTimer (store w1) = Some (S (timerSeq w)))
  /\ (forall w n1 n2 gap,
        reachable cfg noticeList date w ->
        banner_ready w = true -> styleable n1 = true -> styleable n2 = true ->
        exists w1 w2,
          displayNotice cfg n1 w = Ok tt w1
          /\ displayNotice cfg n2 (elapse gap w1) = Ok tt w2
          /\ timers w2
             = [mkTimer (S (S (timerSeq w)))
                        (now w2 + timer_delay (noticeDisplayTime cfg))]
          /\ (forall t,
                0 <= t -> t < timer_delay (noticeDisplayTime cfg) ->
                visible (elapse t w2) = true
                /\ timers (elapse t w2) = timers w2)
          /\ (forall t,
                timer_delay (noticeDisplayTime cfg) <= t ->
                visible (elapse t w2) = false /\ timers (elapse t w2) = []))
  /\ timer_delay (noticeDisplayTime config) = 15000.
Proof.
  split; [|split; [|split; [|reflexivity]]].
  - intros w R. destruct (one_timer_reachable _ _ _ w R) as [->|(tm & -> & _)];
      cbn; lia.
  - intros w n R B Hs. exists (shown cfg n w).
    split; [now apply displayNotice_shown|].
    split; [apply timers_shown; eapply one_timer_reachable; eassumption|].
    reflexivity.
  - intros w n1 n2 gap R B H1 H2.
    pose proof (one_timer_reachable _ _ _ w R) as I.
    set (w1 := shown cfg n1 w).
    assert (I1 : one_timer (elapse gap w1))
      by (apply one_timer_elapse; now apply one_timer_shown).
    exists w1, (shown cfg n2 (elapse gap w1)).
    split; [now apply displayNotice_shown|].
    split.
    { apply displayNotice_shown; [|exact H2].
      now rewrite banner_ready_elapse. }
    assert (Q : timers (shown cfg n2 (elapse gap w1))
                = [mkTimer (S (S (timerSeq w)))
                           (now (shown cfg n2 (elapse gap w1))
                            + timer_delay (noticeDisplayTime cfg))]).
    { rewrite timers_shown by exact I1. now rewrite timerSeq_elapse. }
    split; [exact Q|].
    split.
    + intros t T0 T1.
      destruct (elapse_single (shown cfg n2 (elapse gap w1)) _ _ t Q eq_refl
                  (visible_shown _ _ _) T0) as [Hlt _].
      rewrite Q. now apply Hlt.
    + intros t T1.
      pose proof (timer_delay_nonneg (noticeDisplayTime cfg)) as N.
      destruct (elapse_single (shown cfg n2 (elapse gap w1)) _ _ t Q eq_refl
                  (visible_shown _ _ _) ltac:(lia)) as [_ Hge].
      now apply Hge.
Qed.

(** A fresh full page; notice B is shown, 10 s later notice A is shown:
    15 s after the first call (5 s after the second) the banner is still
    visible; 15 s after the second it is hidden. *)
Lemma one_pending_timer_witness :
  reachable config notices sample_date (fresh_world full_page 0)
  /\ banner_ready (fresh_world full_page 0) = true
  /\ styleable notice_B = true /\ styleable notice_A = true
  /\ exists w1 w2,
       displayNotice config notice_B (fresh_world full_page 0) = Ok tt w1
       /\ displayNotice config notice_A (elapse 10000 w1) = Ok tt w2
       /\ (length (timers w2) <= 1)%nat
       /\ visible (elapse 5000 w2) = true
       /\ visible (elapse 15000 w2) = false.
Proof.
  assert (R : reachable config notices sample_date (fresh_world full_page 0))
    by (exists full_page, 0, []; reflexivity).
  split; [exact R|]. split; [reflexivity|]. split; [reflexivity|].
  split; [reflexivity|].
  destruct (one_pending_timer config notices sample_date) as (_ & _ & H & _).
  destruct (H (fresh_world full_page 0) notice_B notice_A 10000 R
              eq_refl eq_refl eq_refl)
    as (w1 & w2 & E1 & E2 & Q & Hlt & Hge).
  exists w1, w2. split; [exact E1|]. split; [exact E2|].
  split; [rewrite Q; cbn; lia|].
  split.
  - apply (Hlt 5000); [lia|reflexivity].
  - apply (Hge 15000). vm_compute. discriminate.
Defined.

(* ------------------------------------------------------------------ *)
(** ** Missing page elements *)

Lemma banner_ready_logged cfg noticeList date m ty w :
  banner_ready (logged cfg noticeList date m ty w) = banner_ready w.
Proof. unfold banner_ready. now autorewrite with frame. Qed.

Section Missing.

Variable cfg : Config.
Variable noticeList : list Notice.
Variable date : DateHost.

Lemma call_returns (e : Event) (w : World) :
  banner_ready w = false -> returns (call cfg noticeList date e w) = true.
Proof.
  intros R. destruct e; cbn [call]; try reflexivity.
  - rewrite init_eq. cbn zeta. destruct noticeList as [|n rest]; [reflexivity|].
    rewrite displayNotice_missing by now rewrite banner_ready_logged.
    reflexivity.
  - now rewrite displayNotice_missing.
  - now rewrite hideNotice_eq.
  - now rewrite addLogEntry_eq.
Qed.

Lemma display_leaves_mark (n : Notice) (w : World) :
  returns (displayNotice cfg n w) = false
  \/ timerSeq (world_of (displayNotice cfg n w)) = S (timerSeq w)
  \/ console (world_of (displayNotice cfg n w))
     = (console w ++ ["Notice banner elements not found"])%list.
Proof.
  destruct (displayNotice_cases cfg n w)
    as [(_ & ->)|[(_ & _ & ->)|(_ & _ & e & ->)]]; cbn; auto.
Qed.

Lemma capped_second (a b : LogEntry) (l : list LogEntry) :
  2 <= maxLogEntries cfg ->
  nth_error (capped cfg (a :: capped cfg (b :: l))) 1 = Some b.
Proof.
  intros H. rewrite !capped_firstn by lia.
  destruct (Z.to_nat (maxLogEntries cfg)) as [|[|k]] eqn:E; try lia.
  reflexivity.
Qed.

End Missing.

(** C6, on a page without the log container: [updateLogsUI] returns
    without logging any diagnostic. *)
Lemma updateLogsUI_silent :
  logsContainer (dom (fresh_world page_without_logs 0)) = None
  /\ logged_diagnostic
       (fresh_world page_without_logs 0)
       (world_of (updateLogsUI notices sample_date
                               (fresh_world page_without_logs 0)))
     = false.
Proof. split; reflexivity. Qed.

(** C6, as the code has it.  A missing element never makes a call throw.
    [displayNotice] without the banner or the text region logs a
    diagnostic and changes nothing else: the store (log, current notice,
    timer handle), the pending timers and the page are as before.
    [setupCloseButton] without the close button logs a diagnostic and
    changes nothing else.  [updateLogsUI] without the log container
    returns at once and logs nothing; [addLogEntry] then still records
    the entry in the store; [hideNotice] without the banner skips the
    class change and logs nothing. *)
Theorem missing_elements_degrade (cfg : Config) (noticeList : list Notice)
    (date : DateHost) (w : World) :
  (banner_ready w = false ->
   (forall e, returns (call cfg noticeList date e w) = true)
   /\ forall n, exists w',
        displayNotice cfg n w = Ok tt w'
        /\ store w' = store w /\ timers w' = timers w
        /\ timerSeq w' = timerSeq w /\ dom w' = dom w
        /\ console w' = (console w ++ ["Notice banner elements not found"])%list)
  /\ (closeNotice (dom w) = None ->
      exists w',
        setupCloseButton w = Ok tt w'
        /\ store w' = store w /\ timers w' = timers w /\ dom w' = dom w
        /\ console w' = (console w ++ ["Close button element not found"])%list)
  /\ (logsContainer (dom w) = None ->
      updateLogsUI noticeList date w = Ok tt w
      /\ forall m ty, exists w',
           addLogEntry cfg noticeList date m ty w = Ok tt w'
           /\ logs (store w')
              = capped cfg (entryAt date (now w) m ty :: logs (store w))
           /\ dom w' = dom w /\ console w' = console w)
  /\ (noticeBanner (dom w) = None ->
      exists w',
        hideNotice w = Ok tt w'
        /\ dom w' = dom w /\ console w' = console w).
Proof.
  split; [|split; [|split]].
  - intros R. split; [intros e; now apply call_returns|].
    intros n. eexists. split; [now apply displayNotice_missing|].
    repeat split.
  - intros C. exists (wired w). split; [apply setupCloseButton_eq|].
    unfold wired. rewrite C. repeat split.
  - intros C. split.
    + rewrite updateLogsUI_eq. unfold render. now rewrite C.
    + intros m ty. eexists. split; [apply addLogEntry_eq|].
      split; [apply logs_logged|].
      unfold logged, render. cbn. rewrite C. split; reflexivity.
  - intros B. exists (hidden w). split; [apply hideNotice_eq|].
    autorewrite with frame. unfold unshown. rewrite B. now split.
Qed.

(** A page with none of the four elements. *)
Lemma missing_elements_degrade_witness :
  banner_ready (fresh_world bare_page 0) = false
  /\ closeNotice (dom (fresh_world bare_page 0)) = None
  /\ logsContainer (dom (fresh_world bare_page 0)) = None
  /\ noticeBanner (dom (fresh_world bare_page 0)) = None
  /\ returns (init config notices sample_date (fresh_world bare_page 0)) = true
  /\ (exists w', setupCloseButton (fresh_world bare_page 0) = Ok tt w')
  /\ updateLogsUI notices sample_date (fresh_world bare_page 0)
     = Ok tt (fresh_world bare_page 0)
  /\ (exists w', hideNotice (fresh_world bare_page 0) = Ok tt w').
Proof.
  destruct (missing_elements_degrade config notices sample_date
              (fresh_world bare_page 0)) as (H1 & H2 & H3 & H4).
  split; [reflexivity|]. split; [reflexivity|]. split; [reflexivity|].
  split; [reflexivity|].
  split; [exact (proj1 (H1 eq_refl) CallInit)|].
  split; [destruct (H2 eq_refl) as (w' & E & _); now exists w'|].
  split; [exact (proj1 (H3 eq_refl))|].
  destruct (H4 eq_refl) as (w' & E & _). now exists w'.
Defined.

(* ------------------------------------------------------------------ *)
(** ** Initialisation *)

(** C7, on a full page with the source's configuration: after [init]
    with no notices the log has no entry whose message is
    ["no notices available"]; the entry the code appends starts with a
    capital letter. *)
Lemma init_empty_message_case :
  existsb (fun e => String.eqb (log_message e) "no notices available")
          (logs (store (world_of (init config [] sample_date
                                       (fresh_world full_page 0))))) = false
  /\ existsb (fun e => String.eqb (log_message e) "No notices available")
             (logs (store (world_of (init config [] sample_date
                                          (fresh_world full_page 0))))) = true.
Proof. split; reflexivity. Qed.

(** C7, as the code has it.  With an empty notice list and a cap of at
    least two, [init] returns, and the entry below the newest one in the
    log reads ["No notices available"], of type ["info"].  [displayNotice]
    is not run: the banner, the text region, the current notice, the timer
    handle, the pending timers and the handle counter are as before, and
    the console gains at most the close-button diagnostic, whereas any
    [displayNotice] call throws, draws a new timer handle, or logs the
    banner diagnostic. *)
Theorem init_without_notices (cfg : Config) (date : DateHost) (w : World) :
  2 <= maxLogEntries cfg ->
  exists w',
    init cfg [] date w = Ok tt w'
    /\ nth_error (logs (store w')) 1
       = Some (mkLogEntry (toISOString date (now w)) "No notices available" "info")
    /\ noticeBanner (dom w') = noticeBanner (dom w)
    /\ noticeText (dom w') = noticeText (dom w)
    /\ currentNotice (store w') = currentNotice (store w)
    /\ noticeTimer (store w') = noticeTimer (store w)
    /\ timers w' = timers w
    /\ timerSeq w' = timerSeq w
    /\ console w'
       = match closeNotice (dom w) with
         | Some _ => console w
         | None => (console w ++ ["Close button element not found"])%list
         end
    /\ (forall n w1,
          returns (displayNotice cfg n w1) = false
          \/ timerSeq (world_of (displayNotice cfg n w1)) = S (timerSeq w1)
          \/ console (world_of (displayNotice cfg n w1))
             = (console w1 ++ ["Notice banner elements not found"])%list).
Proof.
  intros C. eexists. split; [rewrite init_eq; reflexivity|]. cbn zeta.
  split.
  { autorewrite with frame. now apply capped_second. }
  autorewrite with frame. rewrite console_wired.
  autorewrite with frame. repeat split.
  apply display_leaves_mark.
Qed.

(** The source's configuration on a full page. *)
Lemma init_without_notices_witness :
  2 <= maxLogEntries config
  /\ exists w',
       init config [] sample_date (fresh_world full_page 7) = Ok tt w'
       /\ nth_error (logs (store w')) 1
          = Some (mkLogEntry "@7" "No notices available" "info")
       /\ currentNotice (store w') = None
       /\ timers w' = [].
Proof.
  assert (H : 2 <= maxLogEntries config) by (cbn; lia).
  split; [exact H|].
  destruct (init_without_notices config sample_date (fresh_world full_page 7) H)
    as (w' & E & L & _ & _ & Cn & _ & Q & _).
  exists w'. repeat split; assumption.
Defined.

(** C1.  On a page that has the banner and the text region, with a cap of
    at least two, and a first notice whose importance is a class token:
    [init] returns; the text region shows the first notice's message; the
    banner carries the base classes and the class equal to that notice's
    importance, and is visible; the current notice is the first notice;
    and the entry below the newest one in the log has the message
    ["Displaying notice: "] followed by that notice's message and the type
    equal to that notice's importance. *)
Theorem init_displays_latest (cfg : Config) (date : DateHost)
    (n : Notice) (rest : list Notice) (w : World) (s : string) :
  banner_ready w = true ->
  importance n = Some s -> validate_token s = None ->
  2 <= maxLogEntries cfg ->
  exists w' classes,
    init cfg (n :: rest) date w = Ok tt w'
    /\ noticeText (dom w') = Some (message n)
    /\ noticeBanner (dom w') = Some classes
    /\ classes = token_add "active" (token_add s ["notice-banner"; "active"])
    /\ has_token s classes = true
    /\ visible w' = true
    /\ currentNotice (store w') = Some n
    /\ nth_error (logs (store w')) 1
       = Some (mkLogEntry (toISOString date (now w))
                          ("Displaying notice: " ++ message n) s).
Proof.
  intros R Hi V C. destruct (styleable_token n s Hi V) as [Hs T].
  eexists. eexists. split.
  { rewrite init_eq. cbn zeta.
    rewrite displayNotice_shown by (rewrite ?banner_ready_logged; assumption).
    reflexivity. }
  unfold visible. autorewrite with frame. cbn [shown dom store noticeText noticeBanner
    currentNotice logs now].
  assert (E : styled n = token_add "active" (token_add s ["notice-banner"; "active"])).
  { unfold styled. rewrite T, Hi. reflexivity. }
  split; [reflexivity|]. split; [reflexivity|]. split; [exact E|].
  rewrite E.
  split.
  { unfold token_add at 1.
    destruct (has_token "active" (token_add s ["notice-banner"; "active"])) eqn:A.
    - apply has_token_add.
    - unfold has_token. rewrite existsb_app. unfold has_token in *.
      fold (has_token s (token_add s ["notice-banner"; "active"])).
      now rewrite has_token_add. }
  split; [apply has_token_add|]. split; [reflexivity|].
  autorewrite with frame. rewrite capped_second by exact C.
  unfold entryAt. now rewrite Hi.
Qed.

(** The example of the specification: B before A. *)
Lemma init_displays_latest_witness :
  banner_ready (fresh_world full_page 100) = true
  /\ importance notice_B = Some "warning"
  /\ validate_token "warning" = None
  /\ 2 <= maxLogEntries config
  /\ exists w',
       init config [notice_B; notice_A] sample_date (fresh_world full_page 100)
       = Ok tt w'
       /\ noticeText (dom w') = Some "B"
       /\ noticeBanner (dom w') = Some ["notice-banner"; "active"; "warning"]
       /\ nth_error (logs (store w')) 1
          = Some (mkLogEntry "@100" "Displaying notice: B" "warning").
Proof.
  assert (H : 2 <= maxLogEntries config) by (cbn; lia).
  split; [reflexivity|]. split; [reflexivity|]. split; [reflexivity|].
  split; [exact H|].
  destruct (init_displays_latest config sample_date notice_B [notice_A]
              (fresh_world full_page 100) "warning" eq_refl eq_refl eq_refl H)
    as (w' & classes & E & T & B & Cl & _ & _ & _ & L).
  exists w'. split; [exact E|]. split; [exact T|]. split; [|exact L].
  rewrite B, Cl. reflexivity.
Defined.

(* ------------------------------------------------------------------ *)
(** ** Further properties: the log panel *)

Lemma container_wired w : logsContainer (dom (wired w)) = logsContainer (dom w).
Proof. unfold wired. now destruct (closeNotice (dom w)). Qed.

Lemma container_unshown w : logsContainer (dom (unshown w)) = logsContainer (dom w).
Proof. unfold unshown. now destruct (noticeBanner (dom w)). Qed.

Lemma close_unshown w : closeNotice (dom (unshown w)) = closeNotice (dom w).
Proof. unfold unshown. now destruct (noticeBanner (dom w)). Qed.

Lemma text_unshown w : noticeText (dom (unshown w)) = noticeText (dom w).
Proof. unfold unshown. now destruct (noticeBanner (dom w)). Qed.

Lemma container_elapse dt w :
  logsContainer (dom (elapse dt w)) = logsContainer (dom w).
Proof.
  rewrite elapse_eq. cbn zeta. destruct (filter _ _); [reflexivity|].
  now rewrite container_unshown.
Qed.

Lemma close_elapse dt w : closeNotice (dom (elapse dt w)) = closeNotice (dom w).
Proof.
  rewrite elapse_eq. cbn zeta. destruct (filter _ _); [reflexivity|].
  now rewrite close_unshown.
Qed.

Lemma text_elapse dt w : noticeText (dom (elapse dt w)) = noticeText (dom w).
Proof.
  rewrite elapse_eq. cbn zeta. destruct (filter _ _); [reflexivity|].
  now rewrite text_unshown.
Qed.

Lemma synced_ext nl date (w w' : World) :
  logsContainer (dom w') = logsContainer (dom w) ->
  logs (store w') = logs (store w) ->
  synced nl date w -> synced nl date w'.
Proof. unfold synced. now intros -> ->. Qed.

Lemma synced_render nl date (w : World) : synced nl date (render nl date w).
Proof.
  unfold synced. rewrite container_render, store_render.
  now destruct (logsContainer (dom w)).
Qed.

Lemma synced_display cfg nl date n w :
  synced nl date w -> synced nl date (world_of (displayNotice cfg n w)).
Proof.
  destruct (displayNotice_cases cfg n w)
    as [(_ & ->)|[(_ & _ & ->)|(_ & _ & e & ->)]]; cbn [world_of];
    apply synced_ext; reflexivity.
Qed.

Lemma synced_run cfg nl date (es : list Event) (w : World) :
  synced nl date w -> synced nl date (run cfg nl date es w).
Proof.
  apply run_keeps.
  - intros. apply synced_render.
  - intros ?. apply synced_ext; autorewrite with frame;
      [apply container_unshown|reflexivity].
  - intros ? ?. apply synced_ext; autorewrite with frame;
      [apply container_elapse|reflexivity].
  - intros. apply synced_render.
  - intros ?. apply synced_ext; autorewrite with frame;
      [apply container_wired|reflexivity].
  - intros. now apply synced_display.
Qed.

Lemma synced_init cfg nl date (w : World) :
  synced nl date (world_of (init cfg nl date w)).
Proof.
  rewrite init_eq. cbn zeta.
  destruct nl as [|n rest]; cbn [world_of]; [apply synced_render|].
  pose proof (synced_display cfg (n :: rest) date n _
                (synced_render (n :: rest) date
                   (set_store
                      (set_logs
                         (capped cfg
                            (entryAt date (now w) "Broadcast system initialized"
                                     None :: logs (store w)))
                         (store w)) w))) as D.
  fold (logged cfg (n :: rest) date "Broadcast system initialized" None w) in D.
  destruct (displayNotice cfg n _) as [[] w2|e w2]; cbn [world_of] in *.
  - apply synced_render.
  - exact D.
Qed.

(** X1.  The log panel follows the store.  After any [addLogEntry] or
    [init] call, whether it returns or throws, the log container (if the
    page has one) holds exactly the two headers, the notices and the
    current log; and once that is so, it stays so through every later
    event: showing or hiding a notice, a click, a timer firing. *)
Theorem log_panel_synced (cfg : Config) (nl : list Notice) (date : DateHost)
    (w : World) :
  (forall m ty, synced nl date (after cfg nl date (CallAddLogEntry m ty) w))
  /\ synced nl date (after cfg nl date CallInit w)
  /\ (synced nl date w -> forall es, synced nl date (run cfg nl date es w)).
Proof.
  split; [|split].
  - intros m ty. unfold after. cbn [call]. rewrite addLogEntry_eq.
    apply synced_render.
  - apply synced_init.
  - intros H es. now apply synced_run.
Qed.

(** After [init] on a full page: a click, a display and twenty seconds. *)
Lemma log_panel_synced_witness :
  synced [notice_B; notice_A] sample_date
         (after config [notice_B; notice_A] sample_date CallInit
                (fresh_world full_page 0))
  /\ synced [notice_B; notice_A] sample_date
       (run config [notice_B; notice_A] sample_date
            [Click; CallDisplayNotice notice_A; Elapse 20000]
            (after config [notice_B; notice_A] sample_date CallInit
                   (fresh_world full_page 0))).
Proof.
  pose proof (log_panel_synced config [notice_B; notice_A] sample_date
                (fresh_world full_page 0)) as (_ & H & _).
  split; [exact H|].
  apply (log_panel_synced config [notice_B; notice_A] sample_date
           (after config [notice_B; notice_A] sample_date CallInit
                  (fresh_world full_page 0))).
  exact H.
Defined.

(* ------------------------------------------------------------------ *)
(** ** Further properties: a cap that is not positive *)

Lemma capped_nonpositive cfg (e : LogEntry) :
  maxLogEntries cfg <= 0 -> capped cfg [e] = [].
Proof.
  intros H. unfold capped, slice0. cbn [length].
  replace (Z.of_nat 1 >? maxLogEntries cfg) with true
    by (symmetry; apply Z.gtb_gt; lia).
  destruct (maxLogEntries cfg <? 0) eqn:N.
  - apply Z.ltb_lt in N. replace (Z.max (Z.of_nat 1 + maxLogEntries cfg) 0) with 0 by lia.
    reflexivity.
  - apply Z.ltb_ge in N. replace (Z.min (maxLogEntries cfg) (Z.of_nat 1)) with 0 by lia.
    reflexivity.
Qed.

(** X2.  With a cap of zero or below, no entry is ever retained: from a
    freshly loaded page the log is empty after every run of events.
    (A negative cap makes [slice] drop entries from the end, which on a
    log that starts empty removes the entry just added.) *)
Theorem nonpositive_cap_keeps_nothing (cfg : Config) (nl : list Notice)
    (date : DateHost) (d : Dom) (t0 : Z) (es : list Event) :
  maxLogEntries cfg <= 0 ->
  logs (store (run cfg nl date es (fresh_world d t0))) = [].
Proof.
  intros H.
  apply (run_keeps cfg nl date (fun w => logs (store w) = [])).
  - intros m ty w E. rewrite logs_logged, E. now apply capped_nonpositive.
  - intros w E. now autorewrite with frame.
  - intros dt w E. now autorewrite with frame.
  - intros w E. now autorewrite with frame.
  - intros w E. now autorewrite with frame.
  - intros n w E.
    destruct (displayNotice_cases cfg n w)
      as [(_ & ->)|[(_ & _ & ->)|(_ & _ & e & ->)]]; exact E.
  - reflexivity.
Qed.

Lemma nonpositive_cap_keeps_nothing_witness :
  maxLogEntries negative_config <= 0
  /\ logs (store (run negative_config notices sample_date
                      [CallInit; CallAddLogEntry "x" None; Click]
                      (fresh_world full_page 0))) = [].
Proof.
  assert (H : maxLogEntries negative_config <= 0) by (cbn; lia).
  split; [exact H|].
  exact (nonpositive_cap_keeps_nothing negative_config notices sample_date
           full_page 0 [CallInit; CallAddLogEntry "x" None; Click] H).
Defined.

(* ------------------------------------------------------------------ *)
(** ** Further properties: the timer and the banner *)

Lemma visible_ext (w w' : World) :
  noticeBanner (dom w') = noticeBanner (dom w) -> visible w' = visible w.
Proof. unfold visible. now intros ->. Qed.

Lemma timers_hidden (w : World) : one_timer w -> timers (hidden w) = [].
Proof.
  intros H. unfold hidden.
  destruct (truthy_handle (noticeTimer (store w))) eqn:T; cbn.
  - rewrite timers_unshown. now apply one_timer_cancelled.
  - rewrite timers_unshown. now apply one_timer_idle.
Qed.

Lemma set_timers_idle (t : Z) (w : World) :
  timers w = [] -> set_timers [] (set_now t w) = set_now t w.
Proof. destruct w. cbn. now intros ->. Qed.

Lemma tidy_ext (w w' : World) :
  timers w' = timers w -> noticeTimer (store w') = noticeTimer (store w) ->
  noticeBanner (dom w') = noticeBanner (dom w) ->
  tidy w -> tidy w'.
Proof.
  intros Hq Hn Hb [H1 H2]. split; [now apply (one_timer_ext w)|].
  rewrite Hq, (visible_ext w w' Hb). exact H2.
Qed.

Lemma tidy_hidden (w : World) : tidy w -> tidy (hidden w).
Proof.
  intros [H _]. split; [now apply one_timer_hidden|].
  left. now apply timers_hidden.
Qed.

Lemma tidy_elapse (dt : Z) (w : World) : tidy w -> tidy (elapse dt w).
Proof.
  intros [H V]. split; [now apply one_timer_elapse|].
  destruct H as [E|(tm & E & _)].
  - left. now rewrite timers_elapse, E.
  - rewrite timers_elapse, E. cbn [filter].
    destruct (due (now w + Z.max 0 dt) tm) eqn:D; cbn [negb]; [now left|].
    right. rewrite elapse_eq. cbn zeta. rewrite E. cbn [filter]. rewrite D.
    destruct V as [V|V]; [congruence|]. exact V.
Qed.

Lemma tidy_display cfg (n : Notice) (w : World) :
  tidy w -> tidy (world_of (displayNotice cfg n w)).
Proof.
  intros [H V].
  destruct (displayNotice_cases cfg n w)
    as [(_ & ->)|[(_ & _ & ->)|(_ & _ & e & ->)]]; cbn [world_of].
  - now split.
  - split; [now apply one_timer_shown|]. right. apply visible_shown.
  - split; [exact H|]. right. reflexivity.
Qed.

Lemma tidy_run cfg nl date (es : list Event) (w : World) :
  tidy w -> tidy (run cfg nl date es w).
Proof.
  apply run_keeps.
  - intros ? ? ?. apply tidy_ext; now autorewrite with frame.
  - apply tidy_hidden.
  - apply tidy_elapse.
  - intros ?. apply tidy_ext; now autorewrite with frame.
  - intros ?. apply tidy_ext; now autorewrite with frame.
  - apply tidy_display.
Qed.

(** X3.  No timer is left pending while the banner is hidden: in every
    world a run reaches from a freshly loaded page, a pending timer
    implies that the banner carries the class [active].  ([hideNotice]
    cancels the timer it hides for, and a timer that fires is gone.) *)
Theorem pending_timer_means_visible (cfg : Config) (nl : list Notice)
    (date : DateHost) (w : World) :
  reachable cfg nl date w -> timers w <> [] -> visible w = true.
Proof.
  intros (d & t0 & es & ->) Q.
  assert (T : tidy (run cfg nl date es (fresh_world d t0))).
  { apply tidy_run. split; left; reflexivity. }
  destruct T as [_ [E|V]]; [contradiction|exact V].
Qed.

Lemma pending_timer_means_visible_witness :
  reachable config notices sample_date
            (run config notices sample_date [CallInit; Elapse 14999]
                 (fresh_world full_page 0))
  /\ timers (run config notices sample_date [CallInit; Elapse 14999]
                 (fresh_world full_page 0)) <> []
  /\ visible (run config notices sample_date [CallInit; Elapse 14999]
                  (fresh_world full_page 0)) = true.
Proof.
  assert (R : reachable config notices sample_date
                (run config notices sample_date [CallInit; Elapse 14999]
                     (fresh_world full_page 0)))
    by (exists full_page, 0, [CallInit; Elapse 14999]; reflexivity).
  assert (Q : timers (run config notices sample_date [CallInit; Elapse 14999]
                          (fresh_world full_page 0)) <> [])
    by (vm_compute; discriminate).
  split; [exact R|]. split; [exact Q|].
  exact (pending_timer_means_visible config notices sample_date _ R Q).
Defined.

(** X4.  Hiding a notice is final.  After a [displayNotice] that found
    its elements followed by [hideNotice], the banner is hidden, no timer
    is pending, the store holds no handle, while the text region and the
    current notice still show the notice; and from then on the passage of
    time changes nothing but the clock. *)
Theorem hide_after_display (cfg : Config) (nl : list Notice) (date : DateHost)
    (n : Notice) (w : World) :
  reachable cfg nl date w -> banner_ready w = true -> styleable n = true ->
  exists w1 w2,
    displayNotice cfg n w = Ok tt w1
    /\ hideNotice w1 = Ok tt w2
    /\ visible w2 = false
    /\ timers w2 = []
    /\ noticeTimer (store w2) = None
    /\ noticeText (dom w2) = Some (message n)
    /\ currentNotice (store w2) = Some n
    /\ forall dt, elapse dt w2 = set_now (now w2 + Z.max 0 dt) w2.
Proof.
  intros R B Hs. pose proof (one_timer_reachable _ _ _ w R) as I.
  exists (shown cfg n w), (hidden (shown cfg n w)).
  split; [now apply displayNotice_shown|].
  split; [apply hideNotice_eq|].
  assert (Q : timers (hidden (shown cfg n w)) = [])
    by (apply timers_hidden; now apply one_timer_shown).
  split; [apply visible_hidden|]. split; [exact Q|].
  split; [reflexivity|].
  split; [rewrite dom_hidden, text_unshown; reflexivity|].
  split; [now rewrite currentNotice_hidden|].
  intros dt. rewrite elapse_eq. cbn zeta. rewrite Q. cbn [filter].
  now apply set_timers_idle.
Qed.

Lemma hide_after_display_witness :
  reachable config notices sample_date (fresh_world full_page 0)
  /\ banner_ready (fresh_world full_page 0) = true
  /\ styleable notice_B = true
  /\ exists w1 w2,
       displayNotice config notice_B (fresh_world full_page 0) = Ok tt w1
       /\ hideNotice w1 = Ok tt w2
       /\ visible (elapse 15000 w2) = false
       /\ timers w2 = [].
Proof.
  assert (R : reachable config notices sample_date (fresh_world full_page 0))
    by (exists full_page, 0, []; reflexivity).
  split; [exact R|]. split; [reflexivity|]. split; [reflexivity|].
  destruct (hide_after_display config notices sample_date notice_B
              (fresh_world full_page 0) R eq_refl eq_refl)
    as (w1 & w2 & E1 & E2 & V & Q & _ & _ & _ & F).
  exists w1, w2. split; [exact E1|]. split; [exact E2|].
  split; [|exact Q]. rewrite F. exact V.
Defined.

Lemma token_remove_filter (cl : list string) :
  token_remove "active" cl = filter (fun c => negb (String.eqb c "active")) cl.
Proof.
  unfold token_remove. apply filter_ext. intros c. now rewrite String.eqb_sym.
Qed.

Lemma existsb_filter {A} (f : A -> bool) (l : list A) :
  existsb f l = match filter f l with [] => false | _ => true end.
Proof.
  induction l as [|a l IH]; [reflexivity|]. cbn.
  destruct (f a); [reflexivity|exact IH].
Qed.

(** X5.  A timer that fires only takes the class [active] off the banner.
    Whatever time passes: the timers that are due leave the queue and the
    others stay; if at least one was due, the banner's class list is the
    old one without [active], every other class kept in place, and
    otherwise it is the old one; the store (log, current notice and the
    timer handle, which is therefore kept after its timer has fired), the
    console, the text region, the close button and the log container are
    as before: unlike a click on the close button, the automatic hide
    writes no log entry. *)
Theorem timer_fire_only_hides (dt : Z) (w : World) :
  store (elapse dt w) = store w
  /\ console (elapse dt w) = console w
  /\ noticeText (dom (elapse dt w)) = noticeText (dom w)
  /\ closeNotice (dom (elapse dt w)) = closeNotice (dom w)
  /\ logsContainer (dom (elapse dt w)) = logsContainer (dom w)
  /\ now (elapse dt w) = now w + Z.max 0 dt
  /\ timers (elapse dt w)
     = filter (fun tm => negb (fireAt tm <=? now w + Z.max 0 dt)) (timers w)
  /\ noticeBanner (dom (elapse dt w))
     = if existsb (fun tm => fireAt tm <=? now w + Z.max 0 dt) (timers w)
       then option_map (filter (fun c => negb (String.eqb c "active")))
                       (noticeBanner (dom w))
       else noticeBanner (dom w).
Proof.
  split; [apply store_elapse|]. split; [apply console_elapse|].
  split; [apply text_elapse|]. split; [apply close_elapse|].
  split; [apply container_elapse|]. split; [apply now_elapse|].
  split; [apply timers_elapse|].
  rewrite existsb_filter, elapse_eq. cbn zeta.
  change (fun tm => fireAt tm <=? now w + Z.max 0 dt)
    with (due (now w + Z.max 0 dt)).
  destruct (filter (due (now w + Z.max 0 dt)) (timers w)); [reflexivity|].
  unfold unshown. cbn [set_timers set_now dom].
  destruct (noticeBanner (dom w)) as [cl|] eqn:B; cbn; [|exact B].
  now rewrite token_remove_filter.
Qed.

(* ------------------------------------------------------------------ *)
(** ** Further properties: the close button *)

Lemma close_hidden w : closeNotice (dom (hidden w)) = closeNotice (dom w).
Proof. rewrite dom_hidden. apply close_unshown. Qed.

Lemma close_wired w :
  closeNotice (dom (wired w)) = option_map S (closeNotice (dom w)).
Proof. unfold wired. destruct (closeNotice (dom w)) eqn:E; cbn; [reflexivity|exact E]. Qed.

Lemma firstn_cons_firstn {A} (n : nat) (a : A) (l : list A) :
  firstn n (a :: firstn n l) = firstn n (a :: l).
Proof. apply (firstn_app_firstn n [a] l). Qed.

Lemma closes_iter cfg nl date (w : World) :
  0 <= maxLogEntries cfg -> one_timer w ->
  forall k,
    let closed := entryAt date (now w) "Notice manually closed by user" None in
    let wk := Nat.iter (S k)
                (fun w' => logged cfg nl date "Notice manually closed by user"
                                  None (hidden w')) w in
    visible wk = false /\ timers wk = [] /\ one_timer wk /\ now wk = now w
    /\ logs (store wk)
       = firstn (Z.to_nat (maxLogEntries cfg))
                (repeat closed (S k) ++ logs (store w))
    /\ currentNotice (store wk) = currentNotice (store w)
    /\ closeNotice (dom wk) = closeNotice (dom w).
Proof.
  intros C I k. cbn zeta. induction k as [|k IH].
  - cbn [Nat.iter nat_rect]. unfold visible. autorewrite with frame.
    fold (visible (unshown w)). rewrite visible_unshown.
    rewrite (timers_hidden w I), capped_firstn by exact C.
    repeat split.
    + eapply one_timer_ext; [| |apply (one_timer_hidden w I)];
        now autorewrite with frame.
    + apply close_unshown.
  - rewrite Nat.iter_succ.
    destruct IH as (_ & Q & I' & N & L & Cn & Cb).
    set (wk := Nat.iter (S k) _ w) in *.
    unfold visible. autorewrite with frame.
    fold (visible (unshown wk)). rewrite visible_unshown.
    rewrite (timers_hidden wk I'), capped_firstn by exact C.
    rewrite N, L, firstn_cons_firstn, Cn.
    repeat split.
    + eapply one_timer_ext; [| |apply (one_timer_hidden wk I')];
        now autorewrite with frame.
    + rewrite close_unshown. exact Cb.
Qed.

(** X6.  A click on the close button runs every registered listener.
    With at least one listener, a cap that is not negative and at most
    one pending timer (as in every reachable world), the click hides the
    banner, leaves no pending timer, and logs "Notice manually closed by
    user" once per listener, newest first and under the cap; the current
    notice and the listeners stay. *)
Theorem click_closes (cfg : Config) (nl : list Notice) (date : DateHost)
    (w : World) (k : nat) :
  closeNotice (dom w) = Some (S k) ->
  0 <= maxLogEntries cfg ->
  one_timer w ->
  visible (click cfg nl date w) = false
  /\ timers (click cfg nl date w) = []
  /\ logs (store (click cfg nl date w))
     = firstn (Z.to_nat (maxLogEntries cfg))
              (repeat (mkLogEntry (toISOString date (now w))
                                  "Notice manually closed by user" "info")
                      (S k)
                 ++ logs (store w))
  /\ currentNotice (store (click cfg nl date w)) = currentNotice (store w)
  /\ closeNotice (dom (click cfg nl date w)) = Some (S k).
Proof.
  intros B C I. rewrite click_eq, B.
  destruct (closes_iter cfg nl date w C I k) as (V & Q & _ & _ & L & Cn & Cb).
  repeat split; try assumption. now rewrite Cb.
Qed.

Lemma close_display cfg n w :
  closeNotice (dom (world_of (displayNotice cfg n w))) = closeNotice (dom w).
Proof.
  destruct (displayNotice_cases cfg n w)
    as [(_ & ->)|[(_ & _ & ->)|(_ & _ & e & ->)]]; reflexivity.
Qed.

Lemma close_click cfg nl date w :
  closeNotice (dom (click cfg nl date w)) = closeNotice (dom w).
Proof.
  rewrite click_eq. destruct (closeNotice (dom w)) as [k|] eqn:E; [|exact E].
  rewrite <- E. clear E. induction k as [|k IH]; [reflexivity|].
  rewrite Nat.iter_succ. now rewrite close_logged, close_hidden.
Qed.

Lemma close_init cfg nl date w :
  head_styleable nl = true ->
  closeNotice (dom (world_of (init cfg nl date w)))
  = option_map S (closeNotice (dom w)).
Proof.
  intros H. rewrite init_eq. cbn zeta. destruct nl as [|n rest].
  - cbn [world_of]. now rewrite close_logged, close_wired, close_render, !close_logged.
  - cbn in H.
    pose proof (close_display cfg n
                  (logged cfg (n :: rest) date "Broadcast system initialized"
                          None w)) as D.
    destruct (displayNotice_cases cfg n
                (logged cfg (n :: rest) date "Broadcast system initialized" None w))
      as [(_ & E)|[(_ & _ & E)|(_ & F & _)]]; [| |congruence];
      rewrite E in *; cbn [world_of] in *;
      now rewrite close_logged, close_wired, close_render, close_logged, D,
                  close_logged.
Qed.

Lemma close_after cfg nl date e w :
  head_styleable nl = true ->
  closeNotice (dom (after cfg nl date e w))
  = if is_init e then option_map S (closeNotice (dom w))
    else closeNotice (dom w).
Proof.
  intros H. unfold after. destruct e; cbn [call is_init].
  - now apply close_init.
  - apply close_display.
  - rewrite hideNotice_eq. apply close_hidden.
  - rewrite addLogEntry_eq. apply close_logged.
  - reflexivity.
  - apply close_click.
  - apply close_elapse.
Qed.

(** X7.  Listeners pile up.  When the first notice (if any) has a usable
    importance, so that [init] returns, every [init] call registers one
    more click listener on the close button and nothing ever removes
    one: after a run, the button has as many listeners more as the run
    has [init] calls. *)
Theorem listeners_accumulate (cfg : Config) (nl : list Notice) (date : DateHost)
    (es : list Event) (w : World) (k : nat) :
  head_styleable nl = true ->
  closeNotice (dom w) = Some k ->
  closeNotice (dom (run cfg nl date es w)) = Some (k + count_inits es)%nat.
Proof.
  intros H. revert w k. induction es as [|e es IH]; intros w k B.
  - cbn. now rewrite Nat.add_0_r.
  - cbn [run fold_left].
    change (fold_left _ es ?x) with (run cfg nl date es x).
    pose proof (close_after cfg nl date e w H) as A. rewrite B in A.
    unfold count_inits. cbn [filter]. destruct (is_init e); cbn [option_map] in A.
    + rewrite (IH _ _ A). cbn [length]. f_equal. unfold count_inits. lia.
    + now rewrite (IH _ _ A).
Qed.

(** Two [init] calls on a full page: two listeners, and one click logs the
    closing twice. *)
Lemma listeners_accumulate_witness :
  head_styleable notices = true
  /\ closeNotice (dom (fresh_world full_page 0)) = Some 0%nat
  /\ closeNotice (dom (run config notices sample_date
                           [CallInit; Elapse 10; CallInit]
                           (fresh_world full_page 0))) = Some 2%nat.
Proof.
  split; [reflexivity|]. split; [reflexivity|].
  exact (listeners_accumulate config notices sample_date
           [CallInit; Elapse 10; CallInit] (fresh_world full_page 0) 0
           eq_refl eq_refl).
Defined.

Lemma click_closes_witness :
  closeNotice (dom (run config notices sample_date [CallInit; CallInit]
                        (fresh_world full_page 0))) = Some 2%nat
  /\ 0 <= maxLogEntries config
  /\ one_timer (run config notices sample_date [CallInit; CallInit]
                    (fresh_world full_page 0))
  /\ firstn 2 (logs (store (click config notices sample_date
                              (run config notices sample_date [CallInit; CallInit]
                                   (fresh_world full_page 0)))))
     = [mkLogEntry "@0" "Notice manually closed by user" "info";
        mkLogEntry "@0" "Notice manually closed by user" "info"]
  /\ visible (click config notices sample_date
                (run config notices sample_date [CallInit; CallInit]
                     (fresh_world full_page 0))) = false.
Proof.
  assert (B : closeNotice (dom (run config notices sample_date [CallInit; CallInit]
                                    (fresh_world full_page 0))) = Some 2%nat)
    by reflexivity.
  assert (C : 0 <= maxLogEntries config) by (cbn; lia).
  assert (I : one_timer (run config notices sample_date [CallInit; CallInit]
                             (fresh_world full_page 0))).
  { right. exists (mkTimer 2 15000). repeat split. discriminate. }
  split; [exact B|]. split; [exact C|]. split; [exact I|].
  destruct (click_closes config notices sample_date _ 1 B C I)
    as (V & _ & L & _).
  split; [rewrite L; reflexivity|exact V].
Defined.

(* ------------------------------------------------------------------ *)
(** ** Further properties: what [init] logs *)

Lemma now_display cfg n w : now (world_of (displayNotice cfg n w)) = now w.
Proof.
  destruct (displayNotice_cases cfg n w)
    as [(_ & ->)|[(_ & _ & ->)|(_ & _ & e & ->)]]; reflexivity.
Qed.

Lemma logs_display cfg n w :
  logs (store (world_of (displayNotice cfg n w))) = logs (store w).
Proof.
  destruct (displayNotice_cases cfg n w)
    as [(_ & ->)|[(_ & _ & ->)|(_ & _ & e & ->)]]; reflexivity.
Qed.

Lemma firstn_three {A} (n : nat) (a b c : A) (l : list A) :
  firstn n (a :: firstn n (b :: firstn n (c :: l))) = firstn n (a :: b :: c :: l).
Proof.
  rewrite (firstn_cons_firstn n b (c :: l)).
  apply (firstn_cons_firstn n a (b :: c :: l)).
Qed.

(** X8.  With a cap that is not negative, an [init] that returns puts
    three entries on top of the log, all stamped with the instant of the
    call: "Broadcast system ready" above the announcement ("Displaying
    notice: ..." with the first notice's importance as type, or "No
    notices available") above "Broadcast system initialized"; the log is
    then cut to the cap.  An [init] that throws has only logged
    "Broadcast system initialized". *)
Theorem init_appends_three (cfg : Config) (nl : list Notice) (date : DateHost)
    (w : World) :
  0 <= maxLogEntries cfg ->
  logs (store (world_of (init cfg nl date w)))
  = firstn (Z.to_nat (maxLogEntries cfg))
      (if returns (init cfg nl date w)
       then entryAt date (now w) "Broadcast system ready" None
              :: announcement nl date (now w)
              :: entryAt date (now w) "Broadcast system initialized" None
              :: logs (store w)
       else entryAt date (now w) "Broadcast system initialized" None
              :: logs (store w)).
Proof.
  intros C. rewrite init_eq. cbn zeta. destruct nl as [|n rest].
  - cbn [world_of returns announcement]. autorewrite with frame.
    now rewrite !capped_firstn, firstn_three by exact C.
  - pose proof (now_display cfg n
                  (logged cfg (n :: rest) date "Broadcast system initialized"
                          None w)) as N.
    pose proof (logs_display cfg n
                  (logged cfg (n :: rest) date "Broadcast system initialized"
                          None w)) as L.
    destruct (displayNotice cfg n _) as [[] w2|e w2];
      cbn [world_of returns announcement] in *; autorewrite with frame in *.
    + rewrite N, L.
      now rewrite !capped_firstn, firstn_three by exact C.
    + rewrite L. now rewrite capped_firstn by exact C.
Qed.

Lemma init_appends_three_witness :
  0 <= maxLogEntries config
  /\ logs (store (world_of (init config [notice_spaced; notice_A] sample_date
                                 (fresh_world full_page 3))))
     = [mkLogEntry "@3" "Broadcast system initialized" "info"]
  /\ length (logs (store (world_of (init config notices sample_date
                                         (fresh_world full_page 3))))) = 3%nat.
Proof.
  assert (C : 0 <= maxLogEntries config) by (cbn; lia).
  split; [exact C|]. split.
  - rewrite (init_appends_three config [notice_spaced; notice_A] sample_date
               (fresh_world full_page 3) C).
    reflexivity.
  - rewrite (init_appends_three config notices sample_date
               (fresh_world full_page 3) C).
    reflexivity.
Defined.

(** X9.  [init] announces a notice it could not show.  On a page without
    the banner or the text region, with a non-empty notice list and a cap
    of at least two, [init] returns and the log says "Displaying notice:
    ..." for the first notice, although the page, the current notice and
    the timers are untouched and the console holds the diagnostic
    "Notice banner elements not found". *)
Theorem init_announces_unshown_notice (cfg : Config) (date : DateHost)
    (n : Notice) (rest : list Notice) (w : World) :
  banner_ready w = false ->
  2 <= maxLogEntries cfg ->
  exists w',
    init cfg (n :: rest) date w = Ok tt w'
    /\ nth_error (logs (store w')) 1
       = Some (entryAt date (now w) ("Displaying notice: " ++ message n)
                       (importance n))
    /\ noticeBanner (dom w') = noticeBanner (dom w)
    /\ noticeText (dom w') = noticeText (dom w)
    /\ currentNotice (store w') = currentNotice (store w)
    /\ timers w' = timers w
    /\ In "Notice banner elements not found" (console w').
Proof.
  intros R C. eexists. split.
  { rewrite init_eq. cbn zeta.
    rewrite displayNotice_missing by now rewrite banner_ready_logged.
    reflexivity. }
  autorewrite with frame. cbn [set_console store dom timers now console].
  autorewrite with frame.
  split; [now apply capped_second|]. repeat split.
  rewrite console_wired. cbn [set_console dom].
  autorewrite with frame. cbn [console].
  assert (I : In "Notice banner elements not found"
                (console w ++ ["Notice banner elements not found"]))
    by (apply in_or_app; right; now left).
  destruct (closeNotice _); autorewrite with frame;
    [exact I|apply in_or_app; now left].
Qed.

Lemma init_announces_unshown_notice_witness :
  banner_ready (fresh_world bare_page 0) = false
  /\ 2 <= maxLogEntries config
  /\ exists w',
       init config [notice_B; notice_A] sample_date (fresh_world bare_page 0)
       = Ok tt w'
       /\ nth_error (logs (store w')) 1
          = Some (mkLogEntry "@0" "Displaying notice: B" "warning")
       /\ currentNotice (store w') = None.
Proof.
  assert (C : 2 <= maxLogEntries config) by (cbn; lia).
  split; [reflexivity|]. split; [exact C|].
  destruct (init_announces_unshown_notice config sample_date notice_B [notice_A]
              (fresh_world bare_page 0) eq_refl C)
    as (w' & E & L & _ & _ & Cn & _).
  exists w'. repeat split; assumption.
Defined.

(* ------------------------------------------------------------------ *)
(** ** Further properties: the importance as a style class *)

Lemma whitespace_nonempty (s : string) :
  has_whitespace s = true -> String.eqb s "" = false.
Proof. destruct s; [discriminate|reflexivity]. Qed.

Lemma elapse_idle_visible (dt : Z) (w : World) :
  timers w = [] -> visible (elapse dt w) = visible w.
Proof. intros Q. rewrite elapse_eq. cbn zeta. now rewrite Q. Qed.

(** X10.  A notice whose importance contains white space stops [init].
    On a page with the banner and the text region, [classList.add]
    throws [InvalidCharacterError] after the message and the base
    classes were set: the banner is visible, but no timer was started,
    the current notice was not stored, the close button got no listener,
    and of the three log entries only "Broadcast system initialized" was
    written.  If no timer was pending before, the banner stays visible
    however much time passes. *)
Theorem init_aborts_on_bad_importance (cfg : Config) (date : DateHost)
    (n : Notice) (rest : list Notice) (w : World) (s : string) :
  banner_ready w = true ->
  importance n = Some s ->
  has_whitespace s = true ->
  exists w',
    init cfg (n :: rest) date w = Throw InvalidCharacterError w'
    /\ noticeText (dom w') = Some (message n)
    /\ noticeBanner (dom w') = Some ["notice-banner"; "active"]
    /\ visible w' = true
    /\ timers w' = timers w
    /\ noticeTimer (store w') = noticeTimer (store w)
    /\ currentNotice (store w') = currentNotice (store w)
    /\ closeNotice (dom w') = closeNotice (dom w)
    /\ logs (store w')
       = capped cfg (entryAt date (now w) "Broadcast system initialized" None
                       :: logs (store w))
    /\ (timers w = [] -> forall dt, visible (elapse dt w') = true).
Proof.
  intros R Hi Hw.
  pose proof (whitespace_nonempty s Hw) as Hn.
  assert (T : truthy_string (importance n) = true)
    by (rewrite Hi; cbn; now rewrite Hn).
  assert (V : validate_token (js_string (importance n)) = Some InvalidCharacterError)
    by (rewrite Hi; cbn [js_string]; unfold validate_token; now rewrite Hn, Hw).
  set (w1 := logged cfg (n :: rest) date "Broadcast system initialized" None w).
  assert (R1 : banner_ready w1 = true) by (unfold w1; now rewrite banner_ready_logged).
  unfold banner_ready in R1.
  destruct (noticeBanner (dom w1)) as [cl|] eqn:B; [|discriminate].
  destruct (noticeText (dom w1)) as [tx|] eqn:X; [|discriminate].
  eexists. split.
  { rewrite init_eq. cbn zeta. fold w1.
    rewrite (displayNotice_throws cfg n w1 cl tx InvalidCharacterError B X T V).
    reflexivity. }
  cbn [set_dom dom store timers noticeText noticeBanner closeNotice].
  unfold w1. autorewrite with frame.
  repeat split.
  intros Q dt. rewrite elapse_idle_visible; [reflexivity|].
  cbn [set_dom timers]. autorewrite with frame. exact Q.
Qed.

Lemma init_aborts_on_bad_importance_witness :
  banner_ready (fresh_world full_page 0) = true
  /\ importance notice_spaced = Some "very important"
  /\ has_whitespace "very important" = true
  /\ timers (fresh_world full_page 0) = []
  /\ exists w',
       init config [notice_spaced; notice_A] sample_date (fresh_world full_page 0)
       = Throw InvalidCharacterError w'
       /\ closeNotice (dom w') = Some 0%nat
       /\ visible (elapse 1000000 w') = true.
Proof.
  split; [reflexivity|]. split; [reflexivity|]. split; [reflexivity|].
  split; [reflexivity|].
  destruct (init_aborts_on_bad_importance config sample_date notice_spaced
              [notice_A] (fresh_world full_page 0) "very important"
              eq_refl eq_refl eq_refl)
    as (w' & E & _ & _ & _ & _ & _ & _ & Cb & _ & F).
  exists w'. split; [exact E|]. split; [exact Cb|]. exact (F eq_refl 1000000).
Defined.

Lemma has_token_token_add (c t : string) (l : list string) :
  has_token c (token_add t l) = (String.eqb c t || has_token c l)%bool.
Proof.
  unfold token_add. destruct (has_token t l) eqn:E.
  - destruct (String.eqb c t) eqn:F; [|reflexivity].
    apply String.eqb_eq in F. subst c. exact E.
  - unfold has_token. rewrite existsb_app. cbn.
    rewrite orb_false_r. apply orb_comm.
Qed.

(** X11.  [displayNotice] resets the banner's classes.  After a call that
    found its elements, the class list is determined by the notice alone:
    it holds [notice-banner], [active] and the notice's importance when
    that is a non-empty string, and nothing else, whatever classes the
    banner had before (an earlier notice's importance among them). *)
Theorem displayNotice_resets_classes (cfg : Config) (n : Notice) (w : World) :
  banner_ready w = true -> styleable n = true ->
  exists w' classes,
    displayNotice cfg n w = Ok tt w'
    /\ noticeBanner (dom w') = Some classes
    /\ classes = styled n
    /\ forall c,
         has_token c classes = true
         <-> c = "notice-banner" \/ c = "active"
             \/ (importance n = Some c /\ c <> "").
Proof.
  intros R Hs. exists (shown cfg n w), (styled n).
  split; [now apply displayNotice_shown|].
  split; [reflexivity|]. split; [reflexivity|].
  intros c. unfold styled. rewrite base_classes.
  destruct (importance n) as [s|] eqn:Hi; cbn [truthy_string js_string].
  - destruct (String.eqb s "") eqn:E; cbn [negb].
    + apply String.eqb_eq in E. subst s.
      rewrite has_token_token_add. cbn [has_token existsb].
      rewrite !orb_true_iff, !String.eqb_eq. split.
      * intros [H|[H|[H|H]]]; auto; discriminate.
      * intros [H|[H|[H1 H2]]]; auto. injection H1 as <-. contradiction.
    + rewrite !has_token_token_add. cbn [has_token existsb].
      rewrite !orb_true_iff, !String.eqb_eq. split.
      * intros [H|[H|[H|[H|H]]]]; auto; [|discriminate].
        subst c. right. right. split; [reflexivity|].
        intros ->. discriminate.
      * intros [H|[H|[H1 H2]]]; auto. injection H1 as <-. auto.
  - rewrite has_token_token_add. cbn [has_token existsb].
    rewrite !orb_true_iff, !String.eqb_eq. split.
    + intros [H|[H|[H|H]]]; auto; discriminate.
    + intros [H|[H|[H1 H2]]]; auto. discriminate.
Qed.

(** Notice A shown over notice B: the class [warning] of B is gone. *)
Lemma displayNotice_resets_classes_witness :
  banner_ready (world_of (displayNotice config notice_B (fresh_world full_page 0)))
  = true
  /\ styleable notice_A = true
  /\ exists w' classes,
       displayNotice config notice_A
         (world_of (displayNotice config notice_B (fresh_world full_page 0)))
       = Ok tt w'
       /\ noticeBanner (dom w') = Some classes
       /\ has_token "warning" classes = false
       /\ has_token "info" classes = true.
Proof.
  split; [reflexivity|]. split; [reflexivity|].
  destruct (displayNotice_resets_classes config notice_A
              (world_of (displayNotice config notice_B (fresh_world full_page 0)))
              eq_refl eq_refl)
    as (w' & classes & E & B & -> & _).
  exists w', (styled notice_A). repeat split; assumption.
Defined.

Lemma container_logged cfg nl date m ty w :
  logsContainer (dom (logged cfg nl date m ty w))
  = match logsContainer (dom w) with
    | Some _ => Some (rendered nl date (logs (store (logged cfg nl date m ty w))))
    | None => None
    end.
Proof.
  rewrite logs_logged. unfold logged. rewrite container_render. reflexivity.
Qed.

Lemma container_display cfg n w :
  logsContainer (dom (world_of (displayNotice cfg n w))) = logsContainer (dom w).
Proof.
  destruct (displayNotice_cases cfg n w)
    as [(_ & ->)|[(_ & _ & ->)|(_ & _ & e & ->)]]; reflexivity.
Qed.

(** X12.  A first notice without importance is styled in two ways by one
    [init].  On a page with the log container and a cap of at least two,
    [init] returns; the entry it logs for the notice, "Displaying notice:
    ..." followed by the message, gets the default type "info"; and in
    the panel [init] leaves, the notice's own element (the first after
    the header) has the class "log-entry log-undefined", the template
    literal having turned the absent importance into the text
    "undefined", while the element of that log entry (the second after
    the second header) has the class "log-entry log-info". *)
Theorem notice_without_importance_class (cfg : Config) (date : DateHost)
    (n : Notice) (rest : list Notice) (w : World) (old : list Element) :
  logsContainer (dom w) = Some old ->
  importance n = None ->
  2 <= maxLogEntries cfg ->
  exists w' children history entry,
    init cfg (n :: rest) date w = Ok tt w'
    /\ nth_error (logs (store w')) 1
       = Some (mkLogEntry (toISOString date (now w))
                          ("Displaying notice: " ++ message n) "info")
    /\ logsContainer (dom w') = Some children
    /\ nth_error children 1 = Some history
    /\ className history = "log-entry log-undefined"
    /\ nth_error children (4 + length rest) = Some entry
    /\ className entry = "log-entry log-info".
Proof.
  intros Hc Hi C.
  assert (Hs : styleable n = true) by (unfold styleable; now rewrite Hi).
  set (w1 := logged cfg (n :: rest) date "Broadcast system initialized" None w).
  pose proof (now_display cfg n w1) as N.
  pose proof (logs_display cfg n w1) as L.
  pose proof (container_display cfg n w1) as K.
  assert (R : returns (displayNotice cfg n w1) = true).
  { destruct (displayNotice_cases cfg n w1)
      as [(_ & ->)|[(_ & _ & ->)|(_ & F & _)]]; [reflexivity|reflexivity|congruence]. }
  destruct (displayNotice cfg n w1) as [[] w2|e w2] eqn:D; [|discriminate].
  cbn [world_of] in N, L, K.
  set (shownEntry := mkLogEntry (toISOString date (now w))
                                ("Displaying notice: " ++ message n) "info").
  set (w' := logged cfg (n :: rest) date "Broadcast system ready" None
               (wired (render (n :: rest) date
                  (logged cfg (n :: rest) date
                          ("Displaying notice: " ++ message n) (importance n) w2)))).
  assert (E1 : nth_error (logs (store w')) 1 = Some shownEntry).
  { unfold w'. autorewrite with frame. rewrite capped_second by exact C.
    unfold entryAt, shownEntry. rewrite Hi, N. unfold w1. now rewrite now_logged. }
  assert (E2 : logsContainer (dom w')
               = Some (rendered (n :: rest) date (logs (store w')))).
  { unfold w'. rewrite container_logged, container_wired, container_render,
      container_logged, K. unfold w1. rewrite container_logged, Hc. reflexivity. }
  exists w', (rendered (n :: rest) date (logs (store w'))),
         (noticeElement date n), (logElement date shownEntry).
  split.
  { rewrite init_eq. cbn zeta. fold w1. rewrite D. reflexivity. }
  split; [exact E1|]. split; [exact E2|].
  split; [reflexivity|].
  split; [unfold noticeElement; cbn [className]; now rewrite Hi|].
  split; [|reflexivity].
  unfold rendered.
  replace (4 + length rest)%nat with (S (S (length rest) + 2)) by lia.
  cbn [nth_error].
  rewrite nth_error_app2 by (rewrite length_map; cbn [length]; lia).
  rewrite length_map. cbn [length].
  replace (S (length rest) + 2 - S (length rest))%nat with 2%nat by lia.
  change (nth_error (map (logElement date) (logs (store w'))) 1
          = Some (logElement date shownEntry)).
  now rewrite nth_error_map, E1.
Qed.

Lemma notice_without_importance_class_witness :
  logsContainer (dom (fresh_world full_page 0)) = Some []
  /\ importance notice_plain = None
  /\ 2 <= maxLogEntries config
  /\ exists w' children history entry,
       init config [notice_plain; notice_B] sample_date (fresh_world full_page 0)
       = Ok tt w'
       /\ nth_error (logs (store w')) 1
          = Some (mkLogEntry "@0" "Displaying notice: P" "info")
       /\ logsContainer (dom w') = Some children
       /\ nth_error children 1 = Some history
       /\ className history = "log-entry log-undefined"
       /\ nth_error children 5 = Some entry
       /\ className entry = "log-entry log-info".
Proof.
  assert (C : 2 <= maxLogEntries config) by (cbn; lia).
  split; [reflexivity|]. split; [reflexivity|]. split; [exact C|].
  exact (notice_without_importance_class config sample_date notice_plain
           [notice_B] (fresh_world full_page 0) [] eq_refl eq_refl C).
Defined.
